(** * conex.py: fetch a page, isolate its main content, save it as HTML

    A shallow embedding of [src/conex.py] and the properties of its
    pipeline: fetch and strip noise ([extract_web_content]), select the
    main container ([extract_core_content]), inject the preservation
    stylesheet ([enhance_content_preservation]), derive a file name and
    write ([save_content_html]), and the driver ([main]).

    The program works on BeautifulSoup trees, which are mutable objects
    with identity.  Every element of the embedding therefore carries the
    identity of the Python object it stands for ([uid]); a function that
    mutates a tree returns the tree after the mutation. *)

From stdpp Require Import gmap list sorting.
From Stdlib Require Import String Ascii ZArith NArith Lia.

Local Open Scope Z_scope.

(** ** Python strings

    A Python [str] is a sequence of Unicode code points.  The literals of
    the program are ASCII and written with [py]. *)

Abbreviation pystr := (list N).

Definition py (s : string) : pystr :=
  List.map N_of_ascii (list_ascii_of_string s).

(** [sep.join(parts)] *)
Fixpoint join (sep : pystr) (parts : list pystr) : pystr :=
  match parts with
  | [] => []
  | [p] => p
  | p :: rest => p ++ sep ++ join sep rest
  end.

Fixpoint is_prefix (p s : pystr) : bool :=
  match p, s with
  | [], _ => true
  | _ :: _, [] => false
  | a :: p', b :: s' => N.eqb a b && is_prefix p' s'
  end.

(** [term in s] for two strings: substring test. *)
Fixpoint contains (s term : pystr) : bool :=
  is_prefix term s ||
  match s with
  | [] => false
  | _ :: s' => contains s' term
  end.

(** The parts of Python's character database that lie outside ASCII (for
    [isalnum] and [isspace]: outside Latin-1) belong to the interpreter,
    not to the program; they are taken as given. *)
Record unicode_db := {
  u_lower : pystr -> pystr;       (* [str.lower] on a string with non-ASCII characters *)
  u_isalnum : N -> bool;          (* [str.isalnum] above U+00FF *)
  u_isspace : N -> bool           (* [str.isspace] above U+00FF *)
}.

Definition is_ascii (c : N) : bool := (c <? 128)%N.

Definition ascii_lower (c : N) : N :=
  if ((65 <=? c) && (c <=? 90))%N then (c + 32)%N else c.

(** [s.lower()] *)
Definition lower (db : unicode_db) (s : pystr) : pystr :=
  if forallb is_ascii s then List.map ascii_lower s else u_lower db s.

Definition ascii_isalnum (c : N) : bool :=
  ((48 <=? c) && (c <=? 57) || (65 <=? c) && (c <=? 90) || (97 <=? c) && (c <=? 122))%N.

(** Letters and numeric characters of the Latin-1 supplement:
    U+00AA, U+00B2, U+00B3, U+00B5, U+00B9, U+00BA, U+00BC..U+00BE,
    U+00C0..U+00FF without the two operators U+00D7 and U+00F7. *)
Definition latin1_isalnum (c : N) : bool :=
  ((c =? 170) || (c =? 178) || (c =? 179) || (c =? 181) || (c =? 185) || (c =? 186)
   || (188 <=? c) && (c <=? 190)
   || (192 <=? c) && (c <=? 255) && negb (c =? 215) && negb (c =? 247))%N.

(** [c.isalnum()] for a single character *)
Definition isalnum (db : unicode_db) (c : N) : bool :=
  if (c <? 128)%N then ascii_isalnum c
  else if (c <? 256)%N then latin1_isalnum c
  else u_isalnum db c.

(** [c.isspace()]: the ASCII separators and controls, U+0085 and U+00A0. *)
Definition isspace (db : unicode_db) (c : N) : bool :=
  if (c <? 256)%N
  then ((9 <=? c) && (c <=? 13) || (28 <=? c) && (c <=? 32) || (c =? 133) || (c =? 160))%N
  else u_isspace db c.

Fixpoint lstrip (db : unicode_db) (s : pystr) : pystr :=
  match s with
  | [] => []
  | c :: s' => if isspace db c then lstrip db s' else s
  end.

(** [s.strip()] *)
Definition strip (db : unicode_db) (s : pystr) : pystr :=
  rev (lstrip db (rev (lstrip db s))).

(** Truthiness of a string and of a list: non-empty. *)
Definition truthy {A} (l : list A) : bool :=
  match l with [] => false | _ => true end.

(** ** The document tree (bs4) *)

(** An attribute value: a string, or a list of strings for the
    multi-valued attributes ([class]). *)
Inductive attr_value :=
| AStr (s : pystr)
| AList (l : list pystr).

(** The class of a text node: plain text ([NavigableString] itself), or one
    of the subclasses bs4 keeps apart: a CDATA section, a comment, and the
    others (doctype, declaration, processing instruction, and the text of
    a script, style or template element). *)
Inductive string_class := PlainString | CData | Comment | OtherString.

(** A node of the tree: a text node or an element.  The [BeautifulSoup]
    object itself is an element named [[document]] whose contents are the
    top-level nodes. *)
Unset Elimination Schemes.
Inductive node :=
| NavigableString (cls : string_class) (text : pystr)
| Tag (uid : N) (name : pystr) (attrs : gmap pystr attr_value) (contents : list node).
Set Elimination Schemes.

(** Induction over a tree, with the property available for every child. *)
Fixpoint node_ind (P : node -> Prop)
    (Hstr : forall k s, P (NavigableString k s))
    (Htag : forall u nm a cs, Forall P cs -> P (Tag u nm a cs))
    (n : node) : P n :=
  match n with
  | NavigableString k s => Hstr k s
  | Tag u nm a cs =>
      Htag u nm a cs
        ((fix all (l : list node) : Forall P l :=
            match l with
            | [] => List.Forall_nil P
            | c :: l' => List.Forall_cons P c l' (node_ind P Hstr Htag c) (all l')
            end) cs)
  end.

Definition is_tag (n : node) : bool :=
  match n with Tag _ _ _ _ => true | _ => false end.

Definition uid_of (n : node) : option N :=
  match n with Tag u _ _ _ => Some u | _ => None end.

Definition name_of (n : node) : option pystr :=
  match n with Tag _ nm _ _ => Some nm | _ => None end.

Definition contents_of (n : node) : list node :=
  match n with Tag _ _ _ cs => cs | _ => [] end.

(** [tag.get(key)] *)
Definition get (n : node) (key : pystr) : option attr_value :=
  match n with Tag _ _ a _ => a !! key | _ => None end.

Definition has_uid (u : N) (n : node) : bool :=
  match n with Tag u' _ _ _ => N.eqb u' u | _ => false end.

(** [tag.descendants]: every node below [n], in document order. *)
Fixpoint descendants (n : node) : list node :=
  match n with
  | NavigableString _ _ => []
  | Tag _ _ _ cs =>
      (fix over (l : list node) : list node :=
         match l with
         | [] => []
         | c :: l' => c :: descendants c ++ over l'
         end) cs
  end.

Definition descendants_of_list (l : list node) : list node :=
  flat_map (fun c => c :: descendants c) l.

Definition named_in (names : list pystr) (n : node) : bool :=
  match n with
  | Tag _ nm _ _ => bool_decide (nm ∈ names)
  | _ => false
  end.

(** [tag.find_all(names)], also written [tag(names)]: the elements below
    [tag] whose name is one of [names], in document order, as a list. *)
Definition find_all (names : list pystr) (n : node) : list node :=
  List.filter (named_in names) (descendants n).

(** [tag.find(name)], also written [tag.name]: the first such element, or
    [None]. *)
Definition find (nm : pystr) (n : node) : option node :=
  head (find_all [nm] n).

(** [x.decompose()] seen from the tree that holds [x]: the element with the
    identity [u] leaves the contents of its parent, with everything below
    it.  When [x] is no longer in the tree (an ancestor was decomposed
    before), nothing changes. *)
Fixpoint detach (u : N) (n : node) : node :=
  match n with
  | NavigableString k s => NavigableString k s
  | Tag u' nm a cs =>
      Tag u' nm a
        ((fix over (l : list node) : list node :=
            match l with
            | [] => []
            | c :: l' => if has_uid u c then over l' else detach u c :: over l'
            end) cs)
  end.

Definition detach_list (u : N) (l : list node) : list node :=
  List.map (detach u) (List.filter (fun c => negb (has_uid u c)) l).

Definition decompose (x : node) (soup : node) : node :=
  match uid_of x with
  | Some u => detach u soup
  | None => soup
  end.

(** ** Sanitizer: the removal loop of [extract_web_content] *)

Definition noise : list pystr :=
  [py "script"; py "style"; py "iframe"; py "nav"; py "footer"; py "aside"].

(** [for script_or_style in soup([...]): script_or_style.decompose()] *)
Definition remove_noise (soup : node) : node :=
  fold_left (fun s x => decompose x s) (find_all noise soup) soup.

(** ** Effects: exceptions, standard output, files, object identities *)

Inductive exn :=
| RequestException (msg : pystr)   (* requests.exceptions.RequestException and its subclasses *)
| ValueError (msg : pystr)
| AttributeError (msg : pystr)
| IndexError (msg : pystr)
| OSError (msg : pystr)                (* also FileNotFoundError, PermissionError *)
| UnicodeEncodeError (msg : pystr)
| RecursionError (msg : pystr)
| ParserRejectedMarkup (msg : pystr).  (* bs4.exceptions.ParserRejectedMarkup *)

(** [str(e)] *)
Definition exn_str (e : exn) : pystr :=
  match e with
  | RequestException m | ValueError m | AttributeError m | IndexError m
  | OSError m | UnicodeEncodeError m | RecursionError m | ParserRejectedMarkup m => m
  end.

Inductive res (A : Type) :=
| Ret (a : A)
| Raise (e : exn).
Arguments Ret {A} a.
Arguments Raise {A} e.

(** What a run can observe and change: the lines printed so far, the files
    on disk (path to text), and the next unused object identity. *)
Record world := World {
  next_uid : N;
  stdout : list pystr;
  files : gmap pystr pystr
}.

Definition M (A : Type) : Type := world -> res A * world.

Definition ret {A} (a : A) : M A := fun w => (Ret a, w).

Definition raise {A} (e : exn) : M A := fun w => (Raise e, w).

Definition bind {A B} (c : M A) (k : A -> M B) : M B :=
  fun w =>
    match c w with
    | (Ret a, w') => k a w'
    | (Raise e, w') => (Raise e, w')
    end.

Notation "x <- c ;; k" := (bind c (fun x => k))
  (at level 100, c at next level, right associativity).
Notation "c ;; k" := (bind c (fun _ => k))
  (at level 100, right associativity).

Definition lift {A} (r : res A) : M A := fun w => (r, w).

(** [print(line)] *)
Definition print (line : pystr) : M unit :=
  fun w => (Ret tt, World (next_uid w) (stdout w ++ [line]) (files w)).

(** A new object. *)
Definition alloc : M N :=
  fun w => (Ret (next_uid w), World (next_uid w + 1)%N (stdout w) (files w)).

(** [try: body  except requests.exceptions.RequestException as e: handler] *)
Definition try_except_RequestException {A} (body : M A) (handler : exn -> M A) : M A :=
  fun w =>
    match body w with
    | (Raise (RequestException m), w') => handler (RequestException m) w'
    | r => r
    end.

(** A loop [for x in l: s = body(x, s)] whose body can raise. *)
Fixpoint for_each {A S} (body : A -> S -> res S) (l : list A) (s : S) : res S :=
  match l with
  | [] => Ret s
  | x :: l' =>
      match body x s with
      | Ret s' => for_each body l' s'
      | Raise e => Raise e
      end
  end.

(** ** The libraries and the outside world *)

Record response := Response {
  status_code : Z;
  content : list Byte.byte
}.

(** What [BeautifulSoup(markup, 'html.parser')] does: it builds the tree,
    from the given first unused identity, and leaves the next unused
    identity; or html.parser rejects the markup and bs4 raises
    [ParserRejectedMarkup]. *)
Inductive parsed :=
| Parsed (soup : node) (next : N)
| Rejected (msg : pystr).

Record environment := Environment {
  (* requests.get(url, headers=headers, timeout=10): a response, or the
     exception of a network error or timeout *)
  requests_get : pystr -> res response;
  (* the message of the HTTPError that raise_for_status builds *)
  http_error_msg : pystr -> response -> pystr;
  (* BeautifulSoup(markup, 'html.parser') on the markup, from the given
     first unused identity *)
  html_parser : list Byte.byte -> N -> parsed;
  (* open(path, 'w', encoding='utf-8'): the exception it raises for this
     path (a missing directory, no permission), if any *)
  open_error : pystr -> option exn;
  (* file.write(text) and the close at the end of the with block: the
     exception raised for this path and text (a full disk, a character
     that cannot be encoded), if any, and how many characters had reached
     the file *)
  write_error : pystr -> pystr -> option (exn * nat);
  (* str(soup): the markup, or the exception of a tree too deep to print *)
  decode : node -> res pystr;
  (* urlparse(url).netloc *)
  netloc : pystr -> pystr;
  unicode : unicode_db
}.

(** [response.raise_for_status()] *)
Definition raise_for_status (E : environment) (url : pystr) (r : response) : M unit :=
  if (400 <=? status_code r) && (status_code r <? 600)
  then raise (RequestException (http_error_msg E url r))
  else ret tt.

(** [BeautifulSoup(markup, 'html.parser')] *)
Definition BeautifulSoup (E : environment) (markup : list Byte.byte) : M node :=
  fun w =>
    match html_parser E markup (next_uid w) with
    | Parsed soup n => (Ret soup, World n (stdout w) (files w))
    | Rejected msg => (Raise (ParserRejectedMarkup msg), w)
    end.

(** [with open(path, 'w', encoding='utf-8') as file: file.write(str(content))]:
    when [open] raises nothing is touched; once the file is open it is
    empty (created or truncated), and it stays so when [str(content)]
    raises; when the write raises the file keeps what had been written. *)
Definition write_file (E : environment) (path : pystr) (content : node) : M unit :=
  fun w =>
    match open_error E path with
    | Some e => (Raise e, w)
    | None =>
        let opened := World (next_uid w) (stdout w) (<[path := []]> (files w)) in
        match decode E content with
        | Raise e => (Raise e, opened)
        | Ret text =>
            match write_error E path text with
            | Some (e, k) =>
                (Raise e,
                 World (next_uid opened) (stdout opened)
                   (<[path := take k text]> (files opened)))
            | None =>
                (Ret tt,
                 World (next_uid opened) (stdout opened) (<[path := text]> (files opened)))
            end
        end
    end.

(** [BeautifulSoup('<html><head><meta charset="utf-8"></head><body></body></html>', 'html.parser')] *)
Definition BeautifulSoup_skeleton : M node :=
  d <- alloc ;; h <- alloc ;; hd <- alloc ;; m <- alloc ;; b <- alloc ;;
  ret (Tag d (py "[document]") ∅
         [Tag h (py "html") ∅
            [Tag hd (py "head") ∅
               [Tag m (py "meta") {[ py "charset" := AStr (py "utf-8") ]} []];
             Tag b (py "body") ∅ []]]).

(** [soup.new_tag(name)] *)
Definition new_tag (nm : pystr) : M node :=
  u <- alloc ;; ret (Tag u nm ∅ []).

(** [tag.string = text] *)
Definition set_string (text : pystr) (tag : node) : node :=
  match tag with
  | Tag u nm a _ => Tag u nm a [NavigableString PlainString text]
  | _ => tag
  end.

(** The element with the identity [u] receives [child] as its last child. *)
Fixpoint append_to (u : N) (child : node) (n : node) : node :=
  match n with
  | NavigableString k s => NavigableString k s
  | Tag u' nm a cs =>
      Tag u' nm a (List.map (append_to u child) cs ++ (if N.eqb u' u then [child] else []))
  end.

(** The element with the identity [u] receives [child] as its first child. *)
Fixpoint prepend_to (u : N) (child : node) (n : node) : node :=
  match n with
  | NavigableString k s => NavigableString k s
  | Tag u' nm a cs =>
      Tag u' nm a ((if N.eqb u' u then [child] else []) ++ List.map (prepend_to u child) cs)
  end.

(** [parent.append(child)] where [parent] is an element of the tree [dst]
    and [child] an element of the tree [src]: bs4 refuses [None], takes
    the child out of the tree it is in, and adds it to the parent's
    contents.  Returns both trees after the call. *)
Definition append (parent child : option node) (dst src : node) : res (node * node) :=
  match parent with
  | None => Raise (AttributeError (py "'NoneType' object has no attribute 'append'"))
  | Some p =>
      match child with
      | None => Raise (ValueError (py "Cannot insert None into a tag."))
      | Some c =>
          match uid_of p, uid_of c with
          | Some up, Some uc => Ret (append_to up c dst, detach uc src)
          | Some up, None => Ret (append_to up c dst, src)
          | None, _ => Raise (AttributeError (py "'NavigableString' object has no attribute 'append'"))
          end
      end
  end.

(** [parent.append(child)] for a child that is in no tree yet. *)
Definition append_new (parent : option node) (child : node) (dst : node) : res node :=
  match parent with
  | None => Raise (AttributeError (py "'NoneType' object has no attribute 'append'"))
  | Some p =>
      match uid_of p with
      | Some up => Ret (append_to up child dst)
      | None => Raise (AttributeError (py "'NavigableString' object has no attribute 'append'"))
      end
  end.

(** [parent.insert(0, child)] for a child that is in no tree yet. *)
Definition insert0_new (parent : option node) (child : node) (dst : node) : res node :=
  match parent with
  | None => Raise (AttributeError (py "'NoneType' object has no attribute 'insert'"))
  | Some p =>
      match uid_of p with
      | Some up => Ret (prepend_to up child dst)
      | None => Raise (AttributeError (py "'NavigableString' object has no attribute 'insert'"))
      end
  end.

(** [tag.text] for an element that is not a script, style or template
    element (here: a title element): the strings below the tag that are
    plain text or CDATA sections, concatenated; comments and the other
    special strings are skipped. *)
Definition text_of (n : node) : pystr :=
  flat_map (fun d => match d with
                     | NavigableString (PlainString | CData) s => s
                     | _ => []
                     end) (descendants n).

(** ** The program *)

Section Program.

Variable E : environment.

(** *** extract_web_content *)

(** The removal loop, [remove_noise], is defined above; this is the whole
    function.  The headers and the timeout are part of [requests_get]. *)
Definition extract_web_content (url : pystr) : M (option node) :=
  try_except_RequestException
    (response <- lift (requests_get E url) ;;
     raise_for_status E url response ;;
     soup <- BeautifulSoup E (content response) ;;
     ret (Some (remove_noise soup)))
    (fun e =>
       print (py "Error fetching URL: " ++ exn_str e) ;;
       ret None).

(** *** extract_core_content *)

Definition containers : list pystr := [py "main"; py "article"; py "div"].

Definition terms : list pystr :=
  [py "content"; py "main"; py "article"; py "post"; py "entry"].

(** [any(term in s for term in [...])] *)
Definition any_term_in (s : pystr) : bool :=
  existsb (contains s) terms.

(** [candidate.get('id') and any(term in candidate.get('id').lower() ...)]:
    a list has no [lower]. *)
Definition id_check (candidate : node) : res bool :=
  match get candidate (py "id") with
  | None => Ret false
  | Some (AStr s) => Ret (truthy s && any_term_in (lower (unicode E) s))
  | Some (AList l) =>
      if truthy l
      then Raise (AttributeError (py "'list' object has no attribute 'lower'"))
      else Ret false
  end.

(** [' '.join(candidate.get('class')).lower()]; joining a string joins its
    characters. *)
Definition class_str (v : attr_value) : pystr :=
  match v with
  | AList l => lower (unicode E) (join (py " ") l)
  | AStr s => lower (unicode E) (join (py " ") (List.map (fun c => [c]) s))
  end.

Definition attr_truthy (v : attr_value) : bool :=
  match v with AList l => truthy l | AStr s => truthy s end.

Definition class_check (candidate : node) : bool :=
  match get candidate (py "class") with
  | None => false
  | Some v => attr_truthy v && any_term_in (class_str v)
  end.

(** The body of the loop over [main_candidates]: up to two appends. *)
Definition score_candidate (candidate : node) (content_candidates : list (node * Z))
  : res (list (node * Z)) :=
  match id_check candidate with
  | Raise e => Raise e
  | Ret by_id =>
      let content_candidates :=
        if by_id then content_candidates ++ [(candidate, 3)] else content_candidates in
      Ret (if class_check candidate
           then content_candidates ++ [(candidate, 2)]
           else content_candidates)
  end.

Fixpoint insert_by_score (x : node * Z) (l : list (node * Z)) : list (node * Z) :=
  match l with
  | [] => [x]
  | y :: l' => if snd x <? snd y then y :: insert_by_score x l' else x :: l
  end.

(** [l.sort(key=lambda x: x[1], reverse=True)]: Python's sort is stable,
    with [reverse=True] too: entries of equal score keep their order. *)
Definition sort_by_score_reverse (l : list (node * Z)) : list (node * Z) :=
  foldr insert_by_score [] l.

(** Lines 57 to 70: the candidate list. *)
Definition content_candidates_of (soup : node) : res (list (node * Z)) :=
  for_each score_candidate (find_all containers soup) [].

(** Lines 72 to 77: the selected node, [None] when [soup.body] is. *)
Definition select_main_content (soup : node) (content_candidates : list (node * Z))
  : res (option node) :=
  if truthy content_candidates
  then match sort_by_score_reverse content_candidates with
       | e :: _ => Ret (Some (fst e))
       | [] => Raise (IndexError (py "list index out of range"))
       end
  else Ret (find (py "body") soup).

(** Returns the value returned and the argument after the call: the
    selected node has left it. *)
Definition extract_core_content (soup : option node) : M (option node * option node) :=
  match soup with
  | None => ret (None, None)
  | Some soup =>
      content_candidates <- lift (content_candidates_of soup) ;;
      main_content <- lift (select_main_content soup content_candidates) ;;
      new_soup <- BeautifulSoup_skeleton ;;
      moved <- lift (append (find (py "body") new_soup) main_content new_soup soup) ;;
      ret (Some (fst moved), Some (snd moved))
  end.

(** *** save_content_html *)

Definition title_of (content : node) (url : pystr) : pystr :=
  match find (py "title") content with
  | Some title_tag => strip (unicode E) (text_of title_tag)
  | None => netloc E url
  end.

(** [''.join(c if c.isalnum() or c in ' -_' else '_' for c in title)[:50]] *)
Definition safe_title_of (title : pystr) : pystr :=
  take 50
    (List.map (fun c => if isalnum (unicode E) c || contains (py " -_") [c]
                        then c else 95%N) title).

Definition path_for (safe_title : pystr) (output_path : option pystr) : pystr :=
  match output_path with
  | Some p => if truthy p then p else safe_title ++ py ".html"
  | None => safe_title ++ py ".html"
  end.

Definition save_content_html (content : option node) (url : pystr)
    (output_path : option pystr) : M (option pystr) :=
  match content with
  | None => ret None
  | Some content =>
      let title := title_of content url in
      let safe_title := safe_title_of title in
      let output_path := path_for safe_title output_path in
      write_file E output_path content ;;
      ret (Some output_path)
  end.

(** *** enhance_content_preservation *)

Definition preservation_css : pystr := py "
    pre, code {
        background-color: #f6f8fa;
        border-radius: 3px;
        font-family: monospace;
        padding: 0.2em 0.4em;
        overflow-x: auto;
    }
    pre code {
        background-color: transparent;
        padding: 0;
    }
    pre {
        padding: 16px;
        line-height: 1.45;
    }
    img {
        max-width: 100%;
        height: auto;
    }
    table {
        border-collapse: collapse;
        width: 100%;
    }
    table, th, td {
        border: 1px solid #ddd;
        padding: 8px;
    }
    ".

(** The argument object is mutated and returned. *)
Definition enhance_content_preservation (soup : option node) : M (option node) :=
  match soup with
  | None => ret None
  | Some soup =>
      style_tag <- new_tag (py "style") ;;
      let style_tag := set_string preservation_css style_tag in
      match find (py "head") soup with
      | Some _ =>
          soup <- lift (append_new (find (py "head") soup) style_tag soup) ;;
          ret (Some soup)
      | None =>
          head <- new_tag (py "head") ;;
          head <- lift (append_new (Some head) style_tag head) ;;
          soup <- lift (insert0_new (find (py "html") soup) head soup) ;;
          ret (Some soup)
      end
  end.

(** *** main *)

(** [args.url] and [args.output] are the arguments. *)
Definition main (url : pystr) (output : option pystr) : M unit :=
  print (py "Extracting content from: " ++ url) ;;
  soup <- extract_web_content url ;;
  match soup with
  | None => print (py "Failed to extract content")
  | Some _ =>
      extracted <- extract_core_content soup ;;
      let core_content := fst extracted in
      match core_content with
      | None => print (py "Failed to find core content")
      | Some _ =>
          enhanced_content <- enhance_content_preservation core_content ;;
          output_path <- save_content_html enhanced_content url output ;;
          match output_path with
          | Some p =>
              if truthy p
              then print (py "Content successfully saved to: " ++ p)
              else print (py "Failed to save content")
          | None => print (py "Failed to save content")
          end
      end
  end.

End Program.

(** ** Predicates on trees used by the properties *)

(** The identities of the elements at and below the nodes of [l]. *)
Definition uids (l : list node) : list N :=
  omap uid_of (descendants_of_list l).

(** The objects of a tree are pairwise distinct. *)
Definition unique_ids (soup : node) : Prop := NoDup (uids [soup]).

(** html.parser builds a list only for the multi-valued attributes
    ([class], [rel], ...): an [id] is always a string. *)
Definition id_is_str (n : node) : bool :=
  match get n (py "id") with
  | Some (AList _) => false
  | _ => true
  end.

Definition html_attrs (soup : node) : bool :=
  forallb id_is_str (descendants soup).

(** The removal pass as the specification words it: every element whose
    tag is one of [names] goes, with its subtree. *)
Fixpoint prune (names : list pystr) (n : node) : node :=
  match n with
  | NavigableString k s => NavigableString k s
  | Tag u nm a cs =>
      Tag u nm a
        ((fix over (l : list node) : list node :=
            match l with
            | [] => []
            | c :: l' => if named_in names c then over l' else prune names c :: over l'
            end) cs)
  end.

(** The id check succeeds. *)
Definition id_matches (E : environment) (d : node) : bool :=
  match id_check E d with Ret true => true | _ => false end.

(** The entries one element contributes to the candidate list. *)
Definition entries_of (E : environment) (d : node) : list (node * Z) :=
  (if id_matches E d then [(d, 3)] else []) ++
  (if class_check E d then [(d, 2)] else []).

(** The entries of score [s], and the order the sort establishes. *)
Definition score_is (s : Z) (e : node * Z) : bool := snd e =? s.

Definition not_below (a b : node * Z) : Prop := snd b <= snd a.


(** The characters the filename rule is worded with: [A-Za-z0-9 _-]. *)
Definition in_filename_class (c : N) : bool :=
  ascii_isalnum c || (c =? 32)%N || (c =? 45)%N || (c =? 95)%N.




(** A computation that leaves the files alone. *)
Definition keeps_files {A} (c : M A) : Prop :=
  forall w, files (snd (c w)) = files w.





(** The document that [extract_core_content] returns for the selection
    [sel], built from the first unused identity [u]. *)
Definition extraction_result (u : N) (sel : node) : node :=
  Tag u (py "[document]") ∅
    [Tag (u + 1) (py "html") ∅
       [Tag (u + 1 + 1) (py "head") ∅
          [Tag (u + 1 + 1 + 1) (py "meta") {[ py "charset" := AStr (py "utf-8") ]} []];
        Tag (u + 1 + 1 + 1 + 1) (py "body") ∅ [sel]]]%N.

(** The style element that [enhance_content_preservation] creates. *)
Definition style_element (u : N) : node :=
  Tag u (py "style") ∅ [NavigableString PlainString preservation_css].

(** The identities of the tree are all below [n]: the objects made from
    [n] on are new to it. *)
Definition fresh_for (n : N) (soup : node) : Prop :=
  forall v, In v (uids [soup]) -> (v < n)%N.

(** The selection of the Extractor read by document order: the first
    container that passes the id check, else the first that passes the class
    check, else the body. *)
Definition first_choice (E : environment) (soup : node) : option node :=
  match List.filter (id_matches E) (find_all containers soup) with
  | d :: _ => Some d
  | [] =>
      match List.filter (class_check E) (find_all containers soup) with
      | d :: _ => Some d
      | [] => find (py "body") soup
      end
  end.

(** The document that reaches the Writer: the extraction result for [sel]
    built from the identity [u] on, with the style element, the next object
    made, at the end of its head. *)
Definition final_document (u : N) (sel : node) : node :=
  Tag u (py "[document]") ∅
    [Tag (u + 1) (py "html") ∅
       [Tag (u + 1 + 1) (py "head") ∅
          [Tag (u + 1 + 1 + 1) (py "meta") {[ py "charset" := AStr (py "utf-8") ]} [];
           style_element (u + 1 + 1 + 1 + 1 + 1)];
        Tag (u + 1 + 1 + 1 + 1) (py "body") ∅ [sel]]]%N.


(** The head that [enhance_content_preservation] makes for a document
    without one: the style element is the object [u], the head the next. *)
Definition new_head (u : N) : node :=
  Tag (u + 1)%N (py "head") ∅ [style_element u].




(** ** Sample documents and a sample environment *)

Definition el (u : N) (nm : string) (a : list (pystr * attr_value)) (cs : list node) : node :=
  Tag u (py nm) (list_to_map a) cs.

Definition with_id (s : string) : pystr * attr_value := (py "id", AStr (py s)).

Definition with_class (l : list string) : pystr * attr_value :=
  (py "class", AList (List.map py l)).

Definition txt (s : string) : node := NavigableString PlainString (py s).

Local Open Scope string_scope.
Local Open Scope list_scope.

(** [<html><body><div id="Content">A</div><div id="main">B</div></body></html>] *)
Definition div_content : node := el 3 "div" [with_id "Content"] [txt "A"].

Definition div_main : node := el 4 "div" [with_id "main"] [txt "B"].

Definition doc_two_ids : node :=
  el 0 "[document]" []
    [el 1 "html" [] [el 2 "body" [] [div_content; div_main]]].

Definition cands_two_ids : list (node * Z) := [(div_content, 3); (div_main, 3)].

(** [<body><div class="side post">S</div><article id="main-content"
    class="post entry"><div class="Entry-Body">X</div></article></body>] *)
Definition div_side : node := el 2 "div" [with_class ["side"; "post"]] [txt "S"].

Definition div_entry : node := el 4 "div" [with_class ["Entry-Body"]] [txt "X"].

Definition article_dual : node :=
  el 3 "article" [with_id "main-content"; with_class ["post"; "entry"]] [div_entry].

Definition doc_dual : node :=
  el 0 "[document]" [] [el 1 "body" [] [div_side; article_dual]].

Definition cands_dual : list (node * Z) :=
  [(div_side, 2); (article_dual, 3); (article_dual, 2); (div_entry, 2)].

(** [<html><head><title> Hello </title></head><body><p>text</p><div>more</div></body></html>] *)
Definition title_plain : node := el 3 "title" [] [txt " Hello "].

Definition body_plain : node :=
  el 4 "body" [] [el 5 "p" [] [txt "text"]; el 6 "div" [] [txt "more"]].

Definition doc_plain : node :=
  el 0 "[document]" [] [el 1 "html" [] [el 2 "head" [] [title_plain]; body_plain]].

(** [<p>hi</p>]: html.parser adds no [html] and no [body]. *)
Definition doc_no_body (u : N) : node :=
  el u "[document]" [] [el (u + 1) "p" [] [txt "hi"]].

(** [<body><nav><script>s</script><a>menu</a></nav><p>text<style>c</style></p><footer>f</footer></body>] *)
Definition doc_noisy : node :=
  el 0 "[document]" []
    [el 1 "body" []
       [el 2 "nav" [] [el 3 "script" [] [txt "s"]; el 4 "a" [] [txt "menu"]];
        el 5 "p" [] [txt "text"; el 6 "style" [] [txt "c"]];
        el 7 "footer" [] [txt "f"]]].

(** [<html><body><head></head><p>x</p></body></html>]: html.parser keeps a
    misplaced [head] where the markup has it. *)
Definition doc_head_in_body : node :=
  el 0 "[document]" []
    [el 1 "html" []
       [el 2 "body" [] [el 3 "head" [] []; el 4 "p" [] [txt "x"]]]].

(** An extraction result, as [extract_core_content] builds it, with its
    head and its body. *)
Definition doc_result : node := extraction_result 10 div_content.

Definition head_result : node :=
  Tag 12 (py "head") ∅ [Tag 13 (py "meta") {[ py "charset" := AStr (py "utf-8") ]} []].

Definition body_result : node := Tag 14 (py "body") ∅ [div_content].

Definition plain_unicode : unicode_db :=
  {| u_lower := fun s => s; u_isalnum := fun _ => false; u_isspace := fun _ => false |}.

(** A network where one host is down and one page is missing, and a parser
    that is only ever given the markup [<p>hi</p>]. *)
Definition demo_env : environment :=
  {| requests_get := fun url =>
       if bool_decide (url = py "http://down.example/")
       then Raise (RequestException (py "connection refused"))
       else if bool_decide (url = py "http://gone.example/")
       then Ret (Response 404 [])
       else Ret (Response 200 []);
     http_error_msg := fun url r => py "404 Client Error: Not Found for url: " ++ url;
     html_parser := fun _ u => Parsed (doc_no_body u) (u + 2)%N;
     open_error := fun _ => None;
     write_error := fun _ _ => None;
     decode := fun _ => Ret (py "<html></html>");
     netloc := fun _ => py "host.example";
     unicode := plain_unicode |}.

(** [<html><head><title>Post</title></head><body><nav>menu</nav><div id="content">A</div></body></html>],
    built from the identity [u] on. *)
Definition page_at (u : N) : node :=
  el u "[document]" []
    [el (u + 1) "html" []
       [el (u + 2) "head" [] [el (u + 3) "title" [] [txt "Post"]];
        el (u + 4) "body" []
          [el (u + 5) "nav" [] [txt "menu"];
           el (u + 6) "div" [with_id "content"] [txt "A"]]]].

(** A network that serves that page for every url; the serialization is
    cut down to the text of the body. *)
Definition page_env : environment :=
  {| requests_get := fun _ => Ret (Response 200 []);
     http_error_msg := fun url r => py "error";
     html_parser := fun _ u => Parsed (page_at u) (u + 7)%N;
     open_error := fun _ => None;
     write_error := fun _ _ => None;
     decode := fun d =>
       Ret (match find (py "body") d with Some b => text_of b | None => [] end);
     netloc := fun _ => py "host.example";
     unicode := plain_unicode |}.


(** The same with a working directory that has no subdirectory: a path
    with a slash cannot be opened. *)
Definition no_dir_env : environment :=
  {| requests_get := requests_get page_env;
     http_error_msg := http_error_msg page_env;
     html_parser := html_parser page_env;
     open_error := fun path =>
       if contains path (py "/")
       then Some (OSError (py "[Errno 2] No such file or directory"))
       else None;
     write_error := fun _ _ => None;
     decode := decode page_env;
     netloc := netloc page_env;
     unicode := plain_unicode |}.

(** The same with a parser that rejects the markup. *)
Definition reject_env : environment :=
  {| requests_get := requests_get page_env;
     http_error_msg := http_error_msg page_env;
     html_parser := fun _ _ => Rejected (py "The markup you provided was rejected by the parser.");
     open_error := fun _ => None;
     write_error := fun _ _ => None;
     decode := decode page_env;
     netloc := netloc page_env;
     unicode := plain_unicode |}.

(** The html element of [doc_two_ids], a document without a head. *)
Definition html_two_ids : node := el 1 "html" [] [el 2 "body" [] [div_content; div_main]].

(** The div that is selected in the page [page_at 100], and the page after
    the removal pass. *)
Definition div_page : node := el 106 "div" [with_id "content"] [txt "A"].

Definition page_clean : node :=
  el 100 "[document]" []
    [el 101 "html" []
       [el 102 "head" [] [el 103 "title" [] [txt "Post"]];
        el 104 "body" [] [div_page]]].

Definition w0 : world := World 100 [] ∅.


Local Close Scope string_scope.

(** * Properties *)

(** ** The shape of a tree *)

Lemma descendants_Tag u nm a cs :
  descendants (Tag u nm a cs) = descendants_of_list cs.
Proof.
  simpl. induction cs as [|c cs IH]; simpl; [reflexivity|].
  by rewrite IH.
Qed.

Lemma descendants_of_list_cons c cs :
  descendants_of_list (c :: cs) = c :: descendants c ++ descendants_of_list cs.
Proof. reflexivity. Qed.

Lemma descendants_of_list_app l1 l2 :
  descendants_of_list (l1 ++ l2) = descendants_of_list l1 ++ descendants_of_list l2.
Proof. unfold descendants_of_list. apply flat_map_app. Qed.

Lemma detach_list_cons u c cs :
  detach_list u (c :: cs) =
  if has_uid u c then detach_list u cs else detach u c :: detach_list u cs.
Proof. unfold detach_list. simpl. by destruct (has_uid u c). Qed.

Lemma detach_Tag u u' nm a cs :
  detach u (Tag u' nm a cs) = Tag u' nm a (detach_list u cs).
Proof.
  simpl. f_equal. induction cs as [|c cs IH]; [reflexivity|].
  rewrite detach_list_cons, IH. reflexivity.
Qed.

Lemma prune_Tag names u nm a cs :
  prune names (Tag u nm a cs) =
  Tag u nm a (List.map (prune names) (List.filter (fun c => negb (named_in names c)) cs)).
Proof.
  simpl. f_equal. induction cs as [|c cs IH]; [reflexivity|].
  rewrite IH. simpl. by destruct (named_in names c).
Qed.

Lemma uid_of_detach u n : uid_of (detach u n) = uid_of n.
Proof. by destruct n. Qed.

Lemma name_of_detach u n : name_of (detach u n) = name_of n.
Proof. by destruct n. Qed.

Lemma named_in_detach names u n : named_in names (detach u n) = named_in names n.
Proof. by destruct n. Qed.

Lemma has_uid_detach v u n : has_uid v (detach u n) = has_uid v n.
Proof. by destruct n. Qed.

Lemma named_in_is_tag names n : named_in names n = true -> is_tag n = true.
Proof. by destruct n. Qed.

Lemma has_uid_true u n : has_uid u n = true <-> uid_of n = Some u.
Proof.
  destruct n as [k s|u' nm a cs]; simpl; [by split|].
  rewrite N.eqb_eq. split; [by intros ->|by intros [= ->]].
Qed.

Lemma find_all_In names soup d :
  In d (find_all names soup) <-> In d (descendants soup) /\ named_in names d = true.
Proof. unfold find_all. apply filter_In. Qed.

Lemma descendants_of_list_single n : descendants_of_list [n] = n :: descendants n.
Proof. unfold descendants_of_list. simpl. by rewrite app_nil_r. Qed.

(** Two nodes of a list of distinct identities that carry the same identity
    are one node. *)
Lemma NoDup_omap_uid_inj (l : list node) x y u :
  NoDup (omap uid_of l) -> In x l -> In y l ->
  uid_of x = Some u -> uid_of y = Some u -> x = y.
Proof.
  induction l as [|z l IH]; [done|].
  assert (Hmem : forall v d, In d l -> uid_of d = Some v -> v ∈ omap uid_of l).
  { intros v d Hd Hv. apply list_elem_of_omap. exists d.
    split; [by apply list_elem_of_In|done]. }
  simpl. intros Hnd [<-|Hx] [<-|Hy] Hux Huy; [done|..].
  - rewrite Hux in Hnd. apply NoDup_cons in Hnd as [Hn _].
    exfalso. apply Hn. by eapply Hmem.
  - rewrite Huy in Hnd. apply NoDup_cons in Hnd as [Hn _].
    exfalso. apply Hn. by eapply Hmem.
  - apply IH; [|done..]. destruct (uid_of z); [|done].
    by apply NoDup_cons in Hnd as [_ ?].
Qed.

Lemma unique_ids_descendants soup : unique_ids soup -> NoDup (omap uid_of (descendants soup)).
Proof.
  unfold unique_ids, uids. rewrite descendants_of_list_single. simpl.
  destruct (uid_of soup); [|done]. intros H. by apply NoDup_cons in H as [_ ?].
Qed.

(** ** The removal pass *)

(** What is left after a [detach] was there before, and is not the detached
    element. *)
Lemma detach_descendants u n d' :
  In d' (descendants (detach u n)) ->
  exists d, In d (descendants n) /\ d' = detach u d /\ has_uid u d = false.
Proof.
  revert d'. induction n as [k s|u' nm a cs IH] using node_ind; intros d'; [by simpl|].
  rewrite detach_Tag, !descendants_Tag.
  induction IH as [|c cs Hc _ IHcs]; [by simpl|].
  rewrite detach_list_cons, descendants_of_list_cons.
  destruct (has_uid u c) eqn:Hu.
  - intros Hin. destruct (IHcs Hin) as (d & Hd & -> & Hn).
    exists d. split_and!; [|done..]. right. apply in_or_app. by right.
  - rewrite descendants_of_list_cons. intros [<-|Hin].
    + exists c. split_and!; [by left|done..].
    + apply in_app_or in Hin as [Hin|Hin].
      * destruct (Hc _ Hin) as (d & Hd & -> & Hn).
        exists d. split_and!; [|done..]. right. apply in_or_app. by left.
      * destruct (IHcs Hin) as (d & Hd & -> & Hn).
        exists d. split_and!; [|done..]. right. apply in_or_app. by right.
Qed.

Lemma decompose_descendants x soup d' :
  In d' (descendants (decompose x soup)) ->
  exists d, In d (descendants soup) /\ name_of d' = name_of d /\
            uid_of d' = uid_of d /\ (is_tag x = true -> uid_of d <> uid_of x).
Proof.
  unfold decompose. destruct x as [k s|u nm a cs]; simpl.
  - intros Hin. exists d'. by split_and!.
  - intros Hin. destruct (detach_descendants _ _ _ Hin) as (d & Hd & -> & Hn).
    exists d. split_and!; [done|apply name_of_detach|apply uid_of_detach|].
    intros _ Heq. apply has_uid_true in Heq. congruence.
Qed.

Lemma decompose_all_descendants xs soup d' :
  In d' (descendants (fold_left (fun s x => decompose x s) xs soup)) ->
  exists d, In d (descendants soup) /\ name_of d' = name_of d /\
            uid_of d' = uid_of d /\
            (forall x, In x xs -> is_tag x = true -> uid_of d <> uid_of x).
Proof.
  revert soup. induction xs as [|x xs IH]; intros soup; simpl.
  - intros Hin. exists d'. split_and!; [done..|]. by intros x [].
  - intros Hin. destruct (IH _ Hin) as (d1 & Hd1 & Hn1 & Hu1 & Hx1).
    destruct (decompose_descendants _ _ _ Hd1) as (d & Hd & Hn & Hu & Hx).
    exists d. split_and!; [done|congruence..|].
    intros y [<-|Hy] Ht; [auto|]. rewrite <- Hu. by apply Hx1.
Qed.

Lemma named_in_name_of names d d' :
  name_of d' = name_of d -> named_in names d' = named_in names d.
Proof. destruct d, d'; simpl; try done. by intros [= ->]. Qed.

Lemma remove_noise_clean soup d :
  In d (descendants (remove_noise soup)) -> named_in noise d = false.
Proof.
  intros Hin. destruct (decompose_all_descendants _ _ _ Hin) as (d0 & Hd0 & Hn & Hu & Hx).
  rewrite (named_in_name_of _ _ _ Hn).
  destruct (named_in noise d0) eqn:Hnoise; [|done].
  exfalso. apply (Hx d0); [|by eapply named_in_is_tag|done].
  apply find_all_In. by split.
Qed.

Lemma find_all_nil names soup :
  (forall d, In d (descendants soup) -> named_in names d = false) ->
  find_all names soup = [].
Proof.
  intros H. unfold find_all.
  induction (descendants soup) as [|d l IH]; [done|].
  simpl. rewrite (H d) by (by left). apply IH. intros d' Hd'. apply H. by right.
Qed.

(** The loop removes the elements one identity after the other. *)
Lemma decompose_all_detach xs soup :
  fold_left (fun s x => decompose x s) xs soup =
  fold_left (fun s u => detach u s) (omap uid_of xs) soup.
Proof.
  revert soup. induction xs as [|x xs IH]; intros soup; [done|].
  simpl. unfold decompose at 2. destruct (uid_of x); simpl; apply IH.
Qed.

Lemma detach_all_Tag us u nm a cs :
  fold_left (fun s v => detach v s) us (Tag u nm a cs) =
  Tag u nm a (fold_left (fun l v => detach_list v l) us cs).
Proof.
  revert cs. induction us as [|v us IH]; intros cs; [done|].
  cbn [fold_left]. by rewrite detach_Tag, IH.
Qed.

Lemma detach_all_cons us c cs :
  fold_left (fun l v => detach_list v l) us (c :: cs) =
  if existsb (fun v => has_uid v c) us
  then fold_left (fun l v => detach_list v l) us cs
  else fold_left (fun s v => detach v s) us c ::
       fold_left (fun l v => detach_list v l) us cs.
Proof.
  revert c cs. induction us as [|v us IH]; intros c cs; [done|].
  cbn [fold_left existsb]. rewrite detach_list_cons.
  destruct (has_uid v c) eqn:Hv; [done|].
  cbn [orb]. rewrite IH.
  assert (Hex : existsb (fun v0 => has_uid v0 (detach v c)) us =
                existsb (fun v0 => has_uid v0 c) us).
  { clear. induction us as [|w us IH]; [done|]. simpl. by rewrite has_uid_detach, IH. }
  by rewrite Hex.
Qed.

(** Removing exactly the identities of the elements named in [names] is the
    pruning of those elements. *)
Lemma detach_all_prune names us n :
  (forall d, In d (descendants n) ->
     existsb (fun v => has_uid v d) us = named_in names d) ->
  fold_left (fun s v => detach v s) us n = prune names n.
Proof.
  induction n as [k s|u nm a cs IH] using node_ind.
  - intros _. by induction us.
  - rewrite descendants_Tag, detach_all_Tag, prune_Tag. intros Hd. f_equal.
    induction IH as [|c cs Hc _ IHcs]; [clear; induction us; simpl; auto|].
    rewrite detach_all_cons. rewrite descendants_of_list_cons in Hd.
    rewrite (Hd c) by (by left). simpl.
    assert (Hrest : fold_left (fun l v => detach_list v l) us cs =
              List.map (prune names) (List.filter (fun c0 => negb (named_in names c0)) cs)).
    { apply IHcs. intros d Hin. apply Hd. right. apply in_or_app. by right. }
    destruct (named_in names c); simpl; [done|].
    rewrite Hrest. f_equal. apply Hc. intros d Hin. apply Hd. right. apply in_or_app. by left.
Qed.

(** On a tree of distinct objects the loop is the removal the specification
    words: every element with one of the six tags goes, with its subtree, and
    nothing else changes. *)
Lemma remove_noise_prune soup :
  unique_ids soup -> remove_noise soup = prune noise soup.
Proof.
  intros Hnd. unfold remove_noise. rewrite decompose_all_detach.
  apply detach_all_prune. intros d Hd.
  apply unique_ids_descendants in Hnd.
  destruct (named_in noise d) eqn:Hn.
  - apply existsb_exists. destruct d as [k s|u nm a cs]; [done|].
    exists u. split; [|apply N.eqb_refl].
    apply list_elem_of_In, list_elem_of_omap. exists (Tag u nm a cs).
    split; [|done]. apply list_elem_of_In, find_all_In. by split.
  - apply not_true_is_false. intros Hex.
    apply existsb_exists in Hex as (v & Hv & Hvd).
    apply has_uid_true in Hvd.
    apply list_elem_of_In, list_elem_of_omap in Hv as (x & Hx & Hux).
    apply list_elem_of_In, find_all_In in Hx as [Hx Hxn].
    assert (x = d) as -> by (by eapply NoDup_omap_uid_inj).
    congruence.
Qed.

(** C5. The removal pass of the Sanitizer is idempotent: after one pass no
    script, style, iframe, nav, footer or aside element is left anywhere in
    the tree, what is left are elements of the source with their identity
    and name (nothing stands in for a removed element), a second pass finds
    nothing to remove, and it leaves the tree as it is.  On a tree of
    distinct objects the pass removes each such element with its whole
    subtree and nothing else. *)
Theorem remove_noise_idempotent (soup : node) :
  (forall d, In d (descendants (remove_noise soup)) ->
     named_in noise d = false /\
     exists d0, In d0 (descendants soup) /\ name_of d = name_of d0 /\ uid_of d = uid_of d0) /\
  find_all noise (remove_noise soup) = [] /\
  remove_noise (remove_noise soup) = remove_noise soup /\
  (unique_ids soup -> remove_noise soup = prune noise soup).
Proof.
  assert (Hnil : find_all noise (remove_noise soup) = []).
  { apply find_all_nil, remove_noise_clean. }
  split_and!.
  - intros d Hin. split; [by eapply remove_noise_clean|].
    destruct (decompose_all_descendants _ _ _ Hin) as (d0 & ? & ? & ? & _). eauto.
  - exact Hnil.
  - unfold remove_noise at 1. by rewrite Hnil.
  - apply remove_noise_prune.
Qed.

(** ** The sort of the candidate list *)

Lemma insert_by_score_perm x l : Permutation (insert_by_score x l) (x :: l).
Proof.
  induction l as [|y l IH]; simpl; [done|].
  destruct (snd x <? snd y); [|done].
  rewrite IH. apply perm_swap.
Qed.

Lemma sort_by_score_reverse_perm l : Permutation (sort_by_score_reverse l) l.
Proof.
  induction l as [|x l IH]; simpl; [done|].
  rewrite insert_by_score_perm. by constructor.
Qed.

Lemma insert_by_score_sorted x l :
  StronglySorted not_below l -> StronglySorted not_below (insert_by_score x l).
Proof.
  induction 1 as [|y l Hl IH Hy]; simpl; [repeat constructor|].
  destruct (snd x <? snd y) eqn:Hxy.
  - apply Z.ltb_lt in Hxy. constructor; [done|].
    rewrite Forall_forall. intros z Hz.
    apply list_elem_of_In in Hz.
    apply (Permutation_in _ (insert_by_score_perm x l)) in Hz as [<-|Hz].
    + unfold not_below. lia.
    + rewrite Forall_forall in Hy. apply Hy. by apply list_elem_of_In.
  - apply Z.ltb_ge in Hxy. constructor; [by constructor|].
    constructor; [done|].
    eapply Forall_impl; [exact Hy|]. unfold not_below. intros z Hz. lia.
Qed.

Lemma sort_by_score_reverse_sorted l :
  StronglySorted not_below (sort_by_score_reverse l).
Proof.
  induction l as [|x l IH]; simpl; [constructor|].
  by apply insert_by_score_sorted.
Qed.

(** Stability: the entries of one score keep their order. *)
Lemma insert_by_score_stable s x l :
  List.filter (score_is s) (insert_by_score x l) = List.filter (score_is s) (x :: l).
Proof.
  induction l as [|y l IH]; [done|].
  simpl insert_by_score. destruct (snd x <? snd y) eqn:Hxy; [|done].
  apply Z.ltb_lt in Hxy.
  change (List.filter (score_is s) (y :: insert_by_score x l))
    with (if score_is s y then y :: List.filter (score_is s) (insert_by_score x l)
          else List.filter (score_is s) (insert_by_score x l)).
  rewrite IH. simpl. unfold score_is.
  destruct (snd x =? s) eqn:Hx, (snd y =? s) eqn:Hy; try done.
  apply Z.eqb_eq in Hx, Hy. lia.
Qed.

Lemma sort_by_score_reverse_stable s l :
  List.filter (score_is s) (sort_by_score_reverse l) = List.filter (score_is s) l.
Proof.
  induction l as [|x l IH]; [done|].
  simpl sort_by_score_reverse. rewrite insert_by_score_stable.
  simpl. by rewrite IH.
Qed.



Lemma filter_all_true {A} (f : A -> bool) l :
  (forall x, In x l -> f x = true) -> List.filter f l = l.
Proof.
  induction l as [|x l IH]; intros H; [done|].
  simpl. rewrite (H x) by (by left). f_equal. apply IH. intros y Hy. apply H. by right.
Qed.

Lemma filter_all_false {A} (f : A -> bool) l :
  (forall x, In x l -> f x = false) -> List.filter f l = [].
Proof.
  induction l as [|x l IH]; intros H; [done|].
  simpl. rewrite (H x) by (by left). apply IH. intros y Hy. apply H. by right.
Qed.

(** A sorted list of scores 3 and 2 is its threes followed by its twos. *)
Lemma sorted_threes_then_twos l :
  StronglySorted not_below l ->
  (forall e, In e l -> snd e = 3 \/ snd e = 2) ->
  l = List.filter (score_is 3) l ++ List.filter (score_is 2) l.
Proof.
  induction 1 as [|y l Hl IH Hy]; intros Hsc; [done|].
  assert (Hl' : forall e, In e l -> snd e = 3 \/ snd e = 2) by (intros e He; apply Hsc; by right).
  assert (Hcons : forall s, List.filter (score_is s) (y :: l) =
            if snd y =? s then y :: List.filter (score_is s) l else List.filter (score_is s) l)
    by reflexivity.
  rewrite !Hcons.
  destruct (Hsc y) as [H3|H2]; [by left| |].
  - rewrite H3. simpl. f_equal. by apply IH.

  - assert (Hall : forall e, In e l -> snd e = 2).
    { intros e He. rewrite Forall_forall in Hy.
      specialize (Hy e (proj2 (list_elem_of_In _ _) He)). unfold not_below in Hy.
      destruct (Hl' e He); lia. }
    rewrite H2. simpl.
    rewrite (filter_all_false (score_is 3)), (filter_all_true (score_is 2)); [done|..].
    + intros e He. unfold score_is. rewrite (Hall e He). done.
    + intros e He. unfold score_is. rewrite (Hall e He). done.
Qed.

Lemma sort_threes_then_twos l :
  (forall e, In e l -> snd e = 3 \/ snd e = 2) ->
  sort_by_score_reverse l = List.filter (score_is 3) l ++ List.filter (score_is 2) l.
Proof.
  intros Hsc.
  rewrite <- (sort_by_score_reverse_stable 3 l), <- (sort_by_score_reverse_stable 2 l).
  apply sorted_threes_then_twos; [apply sort_by_score_reverse_sorted|].
  intros e He. apply Hsc. eapply Permutation_in; [apply sort_by_score_reverse_perm|done].
Qed.

(** ** The Extractor *)

Section Extractor.

Variable E : environment.


Lemma score_candidate_Ret d acc r :
  score_candidate E d acc = Ret r -> r = acc ++ entries_of E d.
Proof.
  unfold score_candidate, entries_of, id_matches.
  destruct (id_check E d) as [b|e]; [|done].
  intros [= <-]. destruct b, (class_check E d); simpl;
    rewrite <- ?app_assoc, ?app_nil_r; reflexivity.
Qed.


Lemma for_each_score_Ret l acc r :
  for_each (score_candidate E) l acc = Ret r -> r = acc ++ flat_map (entries_of E) l.
Proof.
  revert acc. induction l as [|d l IH]; intros acc; simpl.
  - intros [= <-]. by rewrite app_nil_r.
  - destruct (score_candidate E d acc) as [r'|e] eqn:Hr; [|done].
    intros H. rewrite (IH _ H), (score_candidate_Ret _ _ _ Hr). by rewrite <- app_assoc.
Qed.


(** The candidate list holds, element after element in document order, the
    id entry and then the class entry of each container that matches. *)
Lemma content_candidates_of_Ret soup cands :
  content_candidates_of E soup = Ret cands ->
  cands = flat_map (entries_of E) (find_all containers soup).
Proof. intros H. by apply for_each_score_Ret in H. Qed.


Lemma entries_of_In d e :
  In e (entries_of E d) ->
  fst e = d /\ (snd e = 3 /\ id_matches E d = true \/ snd e = 2 /\ class_check E d = true).
Proof.
  unfold entries_of. intros He. apply in_app_or in He as [He|He].
  - destruct (id_matches E d); [|done]. destruct He as [<-|[]]. split; [done|by left].
  - destruct (class_check E d); [|done]. destruct He as [<-|[]]. split; [done|by right].
Qed.

Lemma candidates_In soup e :
  In e (flat_map (entries_of E) (find_all containers soup)) ->
  In (fst e) (find_all containers soup) /\
  (snd e = 3 /\ id_matches E (fst e) = true \/ snd e = 2 /\ class_check E (fst e) = true).
Proof.
  intros He. apply in_flat_map in He as (d & Hd & He).
  apply entries_of_In in He as [-> H]. by split.
Qed.

Lemma find_is_tag nm soup d : find nm soup = Some d -> is_tag d = true.
Proof.
  unfold find. intros H.
  assert (Hin : In d (find_all [nm] soup)).
  { destruct (find_all [nm] soup); [done|]. simpl in H. injection H as ->. by left. }
  apply find_all_In in Hin as [_ Hn]. by eapply named_in_is_tag.
Qed.

(** What is selected is an element of the tree. *)
Lemma select_main_content_is_tag soup cands sel :
  content_candidates_of E soup = Ret cands ->
  select_main_content soup cands = Ret (Some sel) ->
  is_tag sel = true /\ In sel (descendants soup).
Proof.
  intros Hc. apply content_candidates_of_Ret in Hc as ->.
  unfold select_main_content.
  destruct (truthy _) eqn:Ht.
  - destruct (sort_by_score_reverse _) as [|e rest] eqn:Hs; [done|].
    intros [= <-].
    assert (He : In e (flat_map (entries_of E) (find_all containers soup))).
    { eapply Permutation_in; [apply sort_by_score_reverse_perm|]. rewrite Hs. by left. }
    apply candidates_In in He as [He _]. apply find_all_In in He as [Hd Hn].
    split; [by eapply named_in_is_tag|done].
  - intros [= H]. split; [by eapply find_is_tag|].
    unfold find in H. destruct (find_all [py "body"] soup) as [|b l] eqn:Hb; [done|].
    simpl in H. injection H as ->.
    assert (Hin : In sel (find_all [py "body"] soup)) by (rewrite Hb; by left).
    by apply find_all_In in Hin as [Hd _].
Qed.

Lemma find_body_skeleton u h hd m b a :
  find (py "body")
    (Tag u (py "[document]") ∅
       [Tag h (py "html") ∅ [Tag hd (py "head") ∅ [Tag m (py "meta") a []];
                             Tag b (py "body") ∅ []]])
  = Some (Tag b (py "body") ∅ []).
Proof. reflexivity. Qed.

Lemma fresh_neq (u k : N) : (k <> 0)%N -> N.eqb u (u + k)%N = false.
Proof. intros Hk. apply N.eqb_neq. lia. Qed.

(** The run of [extract_core_content] once the candidates and the selection
    are known. *)
Lemma extract_core_content_run soup w cands sel :
  content_candidates_of E soup = Ret cands ->
  select_main_content soup cands = Ret (Some sel) ->
  extract_core_content E (Some soup) w =
    (Ret (Some (extraction_result (next_uid w) sel), Some (decompose sel soup)),
     World (next_uid w + 1 + 1 + 1 + 1 + 1)%N (stdout w) (files w)).
Proof.
  intros Hc Hs.
  destruct (select_main_content_is_tag _ _ _ Hc Hs) as [Htag _].
  destruct sel as [k s|us nms ats css]; [done|].
  unfold extract_core_content, bind, lift. rewrite Hc, Hs.
  unfold BeautifulSoup_skeleton, bind, alloc, ret. simpl next_uid. simpl stdout. simpl files.
  cbv beta iota. rewrite find_body_skeleton.
  unfold append, uid_of, decompose, uid_of, extraction_result. cbv beta iota.
  unfold append_to, List.map. cbv beta iota.
  set (u := next_uid w).
  replace (u + 1 + 1 + 1 + 1)%N with (u + 4)%N by lia.
  replace (u + 1 + 1 + 1)%N with (u + 3)%N by lia.
  replace (u + 1 + 1)%N with (u + 2)%N by lia.
  rewrite N.eqb_refl.
  rewrite (fresh_neq u 4) by lia.
  replace (N.eqb (u + 1) (u + 4))%N with false by (symmetry; apply N.eqb_neq; lia).
  replace (N.eqb (u + 2) (u + 4))%N with false by (symmetry; apply N.eqb_neq; lia).
  replace (N.eqb (u + 3) (u + 4))%N with false by (symmetry; apply N.eqb_neq; lia).
  simpl app. simpl fst. simpl snd. reflexivity.
Qed.

Lemma for_each_no_match l acc :
  (forall d, In d l -> id_check E d = Ret false /\ class_check E d = false) ->
  for_each (score_candidate E) l acc = Ret acc.
Proof.
  revert acc. induction l as [|d l IH]; intros acc Hl; [done|].
  simpl. unfold score_candidate.
  destruct (Hl d) as [-> ->]; [by left|].
  apply IH. intros d' Hd'. apply Hl. by right.
Qed.

Lemma detached_is_gone u soup d :
  In d (descendants (detach u soup)) -> uid_of d <> Some u.
Proof.
  intros Hin. destruct (detach_descendants _ _ _ Hin) as (d0 & _ & -> & Hn).
  rewrite uid_of_detach. intros Hu. apply has_uid_true in Hu. congruence.
Qed.

(** C4. When no main, article or div element of the document passes the id
    check or the class check and the document has a body element,
    [extract_core_content] selects exactly that body element: it is the
    node that is moved into the body of the document returned. *)
Theorem fallback_selects_body (soup : node) (w : world) (b : node)
    (Hnone : forall d, In d (find_all containers soup) ->
               id_check E d = Ret false /\ class_check E d = false)
    (Hbody : find (py "body") soup = Some b) :
  content_candidates_of E soup = Ret [] /\
  select_main_content soup [] = Ret (Some b) /\
  extract_core_content E (Some soup) w =
    (Ret (Some (extraction_result (next_uid w) b), Some (decompose b soup)),
     World (next_uid w + 1 + 1 + 1 + 1 + 1)%N (stdout w) (files w)) /\
  find (py "body") (extraction_result (next_uid w) b) =
    Some (Tag (next_uid w + 1 + 1 + 1 + 1)%N (py "body") ∅ [b]).
Proof.
  assert (Hc : content_candidates_of E soup = Ret []).
  { unfold content_candidates_of. by apply for_each_no_match. }
  assert (Hs : select_main_content soup [] = Ret (Some b)).
  { unfold select_main_content. simpl. by rewrite Hbody. }
  split_and!; [done|done|by eapply extract_core_content_run|reflexivity].
Qed.

(** C6. The selected node is moved, not copied, and arrives unchanged: the
    sole child of the body of the document returned is the selected subtree
    itself, equal to it node for node and attribute for attribute, under the
    html/head/body skeleton with the charset meta tag, and the source tree no
    longer holds the selected element. *)
Theorem moved_subtree_preserved (soup : node) (w : world)
    (cands : list (node * Z)) (sel : node)
    (Hcands : content_candidates_of E soup = Ret cands)
    (Hsel : select_main_content soup cands = Ret (Some sel)) :
  exists new_soup soup' w' body,
    extract_core_content E (Some soup) w = (Ret (Some new_soup, Some soup'), w') /\
    new_soup = extraction_result (next_uid w) sel /\
    find (py "body") new_soup = Some body /\
    contents_of body = [sel] /\
    descendants body = sel :: descendants sel /\
    In sel (descendants soup) /\
    soup' = decompose sel soup /\
    (forall d, In d (descendants soup') -> uid_of d <> uid_of sel).
Proof.
  destruct (select_main_content_is_tag _ _ _ Hcands Hsel) as [Htag Hin].
  eexists _, _, _, (Tag (next_uid w + 1 + 1 + 1 + 1)%N (py "body") ∅ [sel]).
  split_and!; [by eapply extract_core_content_run|reflexivity|reflexivity|reflexivity| |done|reflexivity|].
  - rewrite descendants_Tag. simpl. by rewrite app_nil_r.
  - destruct sel as [k s|us nms ats css]; [done|].
    intros d Hd. unfold decompose in Hd. simpl in Hd. simpl. by eapply detached_is_gone.
Qed.


(** C3. An element that passes both checks contributes two separate entries,
    scored 3 and 2 and never 5; the candidate list holds the entries in
    document order, the id entry of an element before its class entry; the
    sort is stable and descending, so that the sorted list is the entries of
    score 3 in their order followed by the entries of score 2 in theirs; and
    for an element that passes both checks the entry that can come first is
    the one scored 3. *)
Theorem dual_match_two_entries (soup : node) (cands : list (node * Z)) (d : node)
    (Hcands : content_candidates_of E soup = Ret cands)
    (Hd : In d (find_all containers soup))
    (Hid : id_matches E d = true)
    (Hclass : class_check E d = true) :
  (forall acc, score_candidate E d acc = Ret (acc ++ [(d, 3); (d, 2)])) /\
  (forall e, In e cands -> snd e = 3 \/ snd e = 2) /\
  cands = flat_map (entries_of E) (find_all containers soup) /\
  entries_of E d = [(d, 3); (d, 2)] /\
  sort_by_score_reverse cands =
    List.filter (score_is 3) cands ++ List.filter (score_is 2) cands /\
  (exists l1 l2 l3, sort_by_score_reverse cands = l1 ++ (d, 3) :: l2 ++ (d, 2) :: l3) /\
  (forall e rest, sort_by_score_reverse cands = e :: rest ->
     snd e = 3 /\ (fst e = d -> e = (d, 3))).
Proof.
  pose proof (content_candidates_of_Ret _ _ Hcands) as Heq.
  assert (Hentries : entries_of E d = [(d, 3); (d, 2)]).
  { unfold entries_of. by rewrite Hid, Hclass. }
  assert (Hscores : forall e, In e cands -> snd e = 3 \/ snd e = 2).
  { intros e He. rewrite Heq in He. apply candidates_In in He as [_ [[? _]|[? _]]]; auto. }
  assert (Hsort := sort_threes_then_twos _ Hscores).
  assert (H3 : In (d, 3) (List.filter (score_is 3) cands)).
  { apply filter_In. split; [|done]. rewrite Heq. apply in_flat_map.
    exists d. split; [done|]. rewrite Hentries. by left. }
  assert (H2 : In (d, 2) (List.filter (score_is 2) cands)).
  { apply filter_In. split; [|done]. rewrite Heq. apply in_flat_map.
    exists d. split; [done|]. rewrite Hentries. right. by left. }
  split_and!; [|done|done|done|done| |].
  - intros acc. unfold score_candidate.
    assert (Hc : id_check E d = Ret true).
    { unfold id_matches in Hid. by destruct (id_check E d) as [[]|]. }
    by rewrite Hc, Hclass, <- app_assoc.
  - apply in_split in H3 as (l1 & l2 & H3). apply in_split in H2 as (l3 & l4 & H2).
    exists l1, (l2 ++ l3), l4. rewrite Hsort, H3, H2.
    by rewrite <- !app_assoc.
  - intros e rest He.
    assert (Hs3 : snd e = 3).
    { rewrite Hsort in He.
      destruct (List.filter (score_is 3) cands) as [|e3 l3] eqn:Hf; [done|].
      simpl in He. injection He as <- _.
      assert (Hin : In e3 (List.filter (score_is 3) cands)) by (rewrite Hf; by left).
      apply filter_In in Hin as [_ Hin]. by apply Z.eqb_eq in Hin. }
    split; [done|]. intros <-. destruct e as [n s]. simpl in *. by rewrite Hs3.
Qed.

End Extractor.

(** ** The Writer *)

Section Writer.

Variable E : environment.

Lemma lookup_map {A B} (f : A -> B) (l : list A) (i : nat) :
  List.map f l !! i = f <$> (l !! i).
Proof.
  revert i. induction l as [|x l IH]; intros [|i]; simpl; try done.
Qed.

Lemma keeps_ascii c :
  (c < 128)%N ->
  isalnum (unicode E) c || contains (py " -_") [c] = in_filename_class c.
Proof.
  intros Hc. unfold isalnum, in_filename_class.
  replace (c <? 128)%N with true by (symmetry; by apply N.ltb_lt).
  assert (contains (py " -_") [c] =
          ((c =? 32) && true || ((c =? 45) && true || ((c =? 95) && true || (false || false))))%N)
    as -> by reflexivity.
  by destruct (ascii_isalnum c), (c =? 32)%N, (c =? 45)%N, (c =? 95)%N.
Qed.


(** C7, as amended.  The file name keeps every character of the derived
    title that Python counts as alphanumeric ([str.isalnum], which accepts
    letters and digits outside ASCII too) and every space, hyphen and
    underscore, and replaces every other character with an underscore; for
    an ASCII character that is the rule "outside [A-Za-z0-9 _-]".  The
    result is cut to at most 50 characters and [.html] is appended when no
    output path is given.  The title [Hello: World!/<script>] gives
    [Hello_ World___script_]. *)
Theorem filename_sanitization (title : pystr) :
  List.length (safe_title_of E title) = Nat.min 50 (List.length title) /\
  (forall i c, (i < 50)%nat -> title !! i = Some c ->
     safe_title_of E title !! i =
     Some (if isalnum (unicode E) c || contains (py " -_") [c] then c else 95%N)) /\
  (forall i c, (i < 50)%nat -> title !! i = Some c -> (c < 128)%N ->
     safe_title_of E title !! i = Some (if in_filename_class c then c else 95%N)) /\
  path_for (safe_title_of E title) None = safe_title_of E title ++ py ".html" /\
  path_for (safe_title_of E title) (Some []) = safe_title_of E title ++ py ".html" /\
  safe_title_of E (py "Hello: World!/<script>") = py "Hello_ World___script_".
Proof.
  assert (Hlook : forall i c, (i < 50)%nat -> title !! i = Some c ->
     safe_title_of E title !! i =
     Some (if isalnum (unicode E) c || contains (py " -_") [c] then c else 95%N)).
  { intros i c Hi Hc. unfold safe_title_of.
    rewrite lookup_take_lt by done. by rewrite lookup_map, Hc. }
  split_and!; [|done| |done|done|reflexivity].
  - unfold safe_title_of. by rewrite length_take, length_map.
  - intros i c Hi Hc Hascii. rewrite (Hlook i c Hi Hc). by rewrite keeps_ascii.
Qed.


Lemma write_file_succeeds path doc text w :
  open_error E path = None -> decode E doc = Ret text -> write_error E path text = None ->
  write_file E path doc w =
    (Ret tt, World (next_uid w) (stdout w) (<[path := text]> (files w))).
Proof.
  intros Ho Hd Hw. unfold write_file. rewrite Ho, Hd, Hw. simpl.
  by rewrite insert_insert_eq.
Qed.



(** C9. For a document with a title element, what [save_content_html]
    returns and writes does not depend on the url: two calls with any two
    urls give the same path and leave the same files (and fail alike when
    the write fails); the call is the write of the document to the path
    derived from the title text alone, and when that write succeeds the
    call returns that path with the serialized document in the file.  The
    url is consulted only when the document has no title element. *)
Theorem save_independent_of_url (content t : node) (url1 url2 : pystr)
    (output : option pystr) (w : world)
    (Htitle : find (py "title") content = Some t) :
  save_content_html E (Some content) url1 output w =
  save_content_html E (Some content) url2 output w /\
  save_content_html E (Some content) url1 None w =
    (write_file E (safe_title_of E (strip (unicode E) (text_of t)) ++ py ".html") content ;;
     ret (Some (safe_title_of E (strip (unicode E) (text_of t)) ++ py ".html"))) w /\
  (forall text,
     open_error E (safe_title_of E (strip (unicode E) (text_of t)) ++ py ".html") = None ->
     decode E content = Ret text ->
     write_error E (safe_title_of E (strip (unicode E) (text_of t)) ++ py ".html") text = None ->
     save_content_html E (Some content) url1 None w =
       (Ret (Some (safe_title_of E (strip (unicode E) (text_of t)) ++ py ".html")),
        World (next_uid w) (stdout w)
          (<[safe_title_of E (strip (unicode E) (text_of t)) ++ py ".html" := text]>
             (files w)))).
Proof.
  unfold save_content_html, title_of. rewrite Htitle. split_and!; [reflexivity..|].
  intros text Ho Hd Hw. unfold path_for, bind.
  by rewrite (write_file_succeeds _ _ text) by done.
Qed.

Lemma save_without_title content url w :
  find (py "title") content = None ->
  save_content_html E (Some content) url None w =
    (write_file E (safe_title_of E (netloc E url) ++ py ".html") content ;;
     ret (Some (safe_title_of E (netloc E url) ++ py ".html"))) w.
Proof.
  intros H. unfold save_content_html, title_of. by rewrite H.
Qed.

End Writer.

(** ** The driver *)

Section Driver.

Variable E : environment.







Lemma keeps_files_extract_web_content url : keeps_files (extract_web_content E url).
Proof.
  intros w. unfold extract_web_content, try_except_RequestException, bind, lift.
  destruct (requests_get E url) as [r|e].
  - unfold raise_for_status.
    destruct ((400 <=? status_code r) && (status_code r <? 600)); [reflexivity|].
    unfold ret, BeautifulSoup.
    by destruct (html_parser E (content r) (next_uid w)) as [soup n|msg].
  - by destruct e.
Qed.









(** [extract_core_content] never returns [None] for a document: the branch
    of [main] that reports a missing core content cannot be reached. *)
Lemma extract_core_content_not_None soup w after :
  fst (extract_core_content E (Some soup) w) <> Ret (None, after).
Proof.
  unfold extract_core_content, bind, lift.
  destruct (content_candidates_of E soup) as [cands|e]; [|done].
  destruct (select_main_content soup cands) as [sel|e]; [|done].
  destruct (BeautifulSoup_skeleton w) as [[new_soup|e] w'] eqn:Hsk; [|done].
  destruct (append _ sel new_soup soup) as [moved|e]; [|done].
  done.
Qed.

(** Without a candidate and without a body element the call ends in the
    ValueError of [append]. *)
Lemma extract_core_content_no_body soup w :
  content_candidates_of E soup = Ret [] ->
  find (py "body") soup = None ->
  extract_core_content E (Some soup) w =
    (Raise (ValueError (py "Cannot insert None into a tag.")),
     World (next_uid w + 1 + 1 + 1 + 1 + 1)%N (stdout w) (files w)).
Proof.
  intros Hc Hb. unfold extract_core_content, bind, lift. rewrite Hc.
  unfold select_main_content. simpl truthy. cbv iota. rewrite Hb.
  unfold BeautifulSoup_skeleton, bind, alloc, ret. simpl next_uid. simpl stdout. simpl files.
  cbv beta iota. rewrite find_body_skeleton. reflexivity.
Qed.

End Driver.

(** ** The Enhancer *)

Lemma append_to_Tag u c u' nm a cs :
  append_to u c (Tag u' nm a cs) =
  Tag u' nm a (List.map (append_to u c) cs ++ (if N.eqb u' u then [c] else [])).
Proof. reflexivity. Qed.

Lemma uid_of_append_to u c n : uid_of (append_to u c n) = uid_of n.
Proof. by destruct n. Qed.

Lemma name_of_append_to u c n : name_of (append_to u c n) = name_of n.
Proof. by destruct n. Qed.

Lemma get_append_to u c n k : get (append_to u c n) k = get n k.
Proof. by destruct n. Qed.

Lemma named_in_append_to names u c n :
  named_in names (append_to u c n) = named_in names n.
Proof. by destruct n. Qed.

Lemma uids_cons c cs : uids (c :: cs) = uids [c] ++ uids cs.
Proof.
  unfold uids. rewrite descendants_of_list_cons.
  change (descendants_of_list [c]) with (c :: descendants c ++ []).
  rewrite app_nil_r. change (c :: descendants c ++ descendants_of_list cs)
    with ((c :: descendants c) ++ descendants_of_list cs).
  apply omap_app.
Qed.

Lemma uids_Tag u nm a cs : uids [Tag u nm a cs] = u :: uids cs.
Proof.
  unfold uids. change (descendants_of_list [Tag u nm a cs])
    with (Tag u nm a cs :: descendants (Tag u nm a cs) ++ []).
  by rewrite app_nil_r, descendants_Tag.
Qed.

Lemma uids_contents h : uids (contents_of h) = omap uid_of (descendants h).
Proof. destruct h as [k s|u nm a cs]; [done|]. simpl contents_of. by rewrite descendants_Tag. Qed.

(** A tree without the identity [u] is not changed. *)
Lemma append_to_absent u c n : ~ In u (uids [n]) -> append_to u c n = n.
Proof.
  induction n as [k s|u' nm a cs IH] using node_ind; [done|].
  rewrite uids_Tag, append_to_Tag. intros Hu.
  assert (Hne : N.eqb u' u = false).
  { apply N.eqb_neq. intros ->. apply Hu. by left. }
  rewrite Hne, app_nil_r. f_equal.
  assert (Hcs : ~ In u (uids cs)) by (intros H; apply Hu; by right).
  clear Hu Hne. induction IH as [|x cs Hx _ IHcs]; [done|].
  rewrite uids_cons in Hcs. simpl. f_equal.
  - apply Hx. intros H. apply Hcs, in_or_app. by left.
  - apply IHcs. intros H. apply Hcs, in_or_app. by right.
Qed.

Lemma map_append_to_absent u c cs :
  ~ In u (uids cs) -> List.map (append_to u c) cs = cs.
Proof.
  induction cs as [|x cs IH]; [done|].
  rewrite uids_cons. intros Hu. simpl. f_equal.
  - apply append_to_absent. intros H. apply Hu, in_or_app. by left.
  - apply IH. intros H. apply Hu, in_or_app. by right.
Qed.

(** Appending a subtree without elements of the names searched for does
    not change what a search finds, up to the append itself. *)
Lemma find_all_append_to names u c n :
  named_in names c = false -> find_all names c = [] ->
  find_all names (append_to u c n) = List.map (append_to u c) (find_all names n).
Proof.
  intros Hc Hbelow.
  induction n as [k s|u' nm a cs IH] using node_ind; [done|].
  unfold find_all. rewrite append_to_Tag, !descendants_Tag, descendants_of_list_app.
  rewrite List.filter_app.
  assert (Hnew : List.filter (named_in names)
            (descendants_of_list (if N.eqb u' u then [c] else [])) = []).
  { destruct (N.eqb u' u); [|done].
    change (descendants_of_list [c]) with (c :: descendants c ++ []).
    rewrite app_nil_r. simpl. by rewrite Hc. }
  rewrite Hnew, app_nil_r. clear Hnew.
  induction IH as [|x cs Hx _ IHcs]; [done|].
  simpl List.map. rewrite !descendants_of_list_cons.
  change (List.filter (named_in names) (?y :: ?l))
    with (if named_in names y then y :: List.filter (named_in names) l
          else List.filter (named_in names) l).
  rewrite !List.filter_app, named_in_append_to, IHcs.
  unfold find_all in Hx. rewrite Hx.
  destruct (named_in names x); simpl; by rewrite List.map_app.
Qed.

Lemma find_append_to nm u c n :
  named_in [nm] c = false -> find_all [nm] c = [] ->
  find nm (append_to u c n) = append_to u c <$> find nm n.
Proof.
  intros Hc Hbelow. unfold find. rewrite find_all_append_to by done.
  by destruct (find_all [nm] n).
Qed.

(** What is in the tree after an append was there before, or came with the
    appended subtree. *)
Lemma descendants_append_to u c n d' :
  In d' (descendants (append_to u c n)) ->
  In d' (c :: descendants c) \/
  exists d, In d (descendants n) /\ d' = append_to u c d.
Proof.
  revert d'. induction n as [k s|u' nm a cs IH] using node_ind; intros d'; [done|].
  rewrite append_to_Tag, !descendants_Tag, descendants_of_list_app.
  intros Hin. apply in_app_or in Hin as [Hin|Hin].
  - induction IH as [|x cs Hx _ IHcs]; [done|].
    simpl List.map in Hin. rewrite descendants_of_list_cons in Hin.
    destruct Hin as [<-|Hin].
    { right. exists x. split; [rewrite descendants_of_list_cons; by left|done]. }
    apply in_app_or in Hin as [Hin|Hin].
    + destruct (Hx _ Hin) as [Hc|(d & Hd & ->)]; [by left|].
      right. exists d. split; [|done].
      rewrite descendants_of_list_cons. right. apply in_or_app. by left.
    + destruct (IHcs Hin) as [Hc|(d & Hd & ->)]; [by left|].
      right. exists d. split; [|done].
      rewrite descendants_of_list_cons. right. apply in_or_app. by right.
  - left. destruct (N.eqb u' u); [|done].
    change (descendants_of_list [c]) with (c :: descendants c ++ []) in Hin.
    by rewrite app_nil_r in Hin.
Qed.

Lemma in_uids l d u :
  In d (descendants_of_list l) -> uid_of d = Some u -> In u (uids l).
Proof.
  intros Hd Hu. apply list_elem_of_In, list_elem_of_omap.
  exists d. split; [by apply list_elem_of_In|done].
Qed.

Lemma uids_in l u :
  In u (uids l) -> exists d, In d (descendants_of_list l) /\ uid_of d = Some u.
Proof.
  intros Hu. apply list_elem_of_In, list_elem_of_omap in Hu as (d & Hd & Hu).
  exists d. split; [by apply list_elem_of_In|done].
Qed.

(** The nodes below a node of the tree follow it in document order. *)
Lemma descendants_split n h :
  In h (descendants n) ->
  exists pre post, descendants n = pre ++ h :: descendants h ++ post.
Proof.
  induction n as [k s|u nm a cs IH] using node_ind; [done|].
  rewrite descendants_Tag.
  induction IH as [|x cs Hx _ IHcs]; [done|].
  rewrite descendants_of_list_cons. intros [<-|Hin].
  - by exists [], (descendants_of_list cs).
  - apply in_app_or in Hin as [Hin|Hin].
    + destruct (Hx Hin) as (pre & post & ->).
      exists (x :: pre), (post ++ descendants_of_list cs).
      simpl. rewrite <- app_assoc. simpl. by rewrite <- app_assoc.
    + destruct (IHcs Hin) as (pre & post & ->).
      exists (x :: descendants x ++ pre), post.
      simpl. by rewrite <- app_assoc.
Qed.

Lemma descendants_trans n b x :
  In b (descendants n) -> In x (descendants b) -> In x (descendants n).
Proof.
  intros Hb Hx. destruct (descendants_split _ _ Hb) as (pre & post & ->).
  apply in_or_app. right. right. apply in_or_app. by left.
Qed.

(** In a tree of distinct identities, the identity of a node is not found
    below it. *)
Lemma unique_ids_below soup h u :
  unique_ids soup -> In h (descendants soup) -> uid_of h = Some u ->
  ~ In u (uids (contents_of h)).
Proof.
  intros Hnd Hh Hu. apply unique_ids_descendants in Hnd.
  destruct (descendants_split _ _ Hh) as (pre & post & Heq).
  rewrite Heq, omap_app in Hnd. apply NoDup_app in Hnd as (_ & _ & Hnd).
  simpl in Hnd. rewrite Hu, omap_app in Hnd.
  apply NoDup_cons in Hnd as [Hn _].
  rewrite uids_contents. intros Hin. apply Hn, elem_of_app. left.
  by apply list_elem_of_In.
Qed.

(** In a tree of distinct identities, a subtree that does not hold the node
    [h] does not hold its identity. *)
Lemma unique_ids_outside soup h b u :
  unique_ids soup -> In h (descendants soup) -> In b (descendants soup) ->
  uid_of h = Some u -> ~ In h (b :: descendants b) -> ~ In u (uids [b]).
Proof.
  intros Hnd Hh Hb Hu Hout Hin.
  apply uids_in in Hin as (x & Hx & Hux). rewrite descendants_of_list_single in Hx.
  assert (Hxs : In x (descendants soup)).
  { destruct Hx as [<-|Hx]; [done|]. by eapply descendants_trans. }
  apply unique_ids_descendants in Hnd.
  assert (x = h) as -> by (by eapply NoDup_omap_uid_inj).
  by apply Hout.
Qed.

Lemma count_in_NoDup (u : N) (l : list N) :
  NoDup l -> In u l -> List.length (List.filter (fun v => N.eqb v u) l) = 1%nat.
Proof.
  induction 1 as [|x l Hx Hl IH]; [done|].
  simpl. intros [->|Hu].
  - rewrite N.eqb_refl. simpl. f_equal.
    rewrite filter_all_false; [done|]. intros v Hv. apply N.eqb_neq. intros ->.
    apply Hx. by apply list_elem_of_In.
  - replace (N.eqb x u) with false; [by apply IH|].
    symmetry. apply N.eqb_neq. intros ->. apply Hx. by apply list_elem_of_In.
Qed.

(** An append adds the appended subtree once for every element with the
    identity [u]. *)
Lemma length_descendants_append_to u c n :
  List.length (descendants (append_to u c n)) =
  (List.length (descendants n) +
   List.length (List.filter (fun v => N.eqb v u) (uids [n])) * S (List.length (descendants c)))%nat.
Proof.
  induction n as [k s|u' nm a cs IH] using node_ind; [done|].
  rewrite append_to_Tag, !descendants_Tag, descendants_of_list_app, length_app, uids_Tag.
  assert (Hcs : List.length (descendants_of_list (List.map (append_to u c) cs)) =
    (List.length (descendants_of_list cs) +
     List.length (List.filter (fun v => N.eqb v u) (uids cs)) * S (List.length (descendants c)))%nat).
  { induction IH as [|x cs Hx _ IHcs]; [done|].
    simpl List.map. rewrite !descendants_of_list_cons, uids_cons, List.filter_app.
    simpl List.length. rewrite !length_app, IHcs, Hx.
    lia. }
  rewrite Hcs. simpl List.filter. destruct (N.eqb u' u).
  - rewrite descendants_of_list_single. simpl List.length. lia.
  - simpl List.length. lia.
Qed.

Lemma find_In nm soup d :
  find nm soup = Some d -> In d (descendants soup) /\ named_in [nm] d = true.
Proof.
  unfold find. intros H. apply find_all_In.
  destruct (find_all [nm] soup) as [|x l]; [done|].
  simpl in H. injection H as ->. by left.
Qed.

Lemma named_in_single nm n : named_in [nm] n = true -> name_of n = Some nm.
Proof.
  destruct n as [k s|u nm' a cs]; [done|]. simpl. intros H.
  apply bool_decide_eq_true in H. apply list_elem_of_In in H as [->|[]]. done.
Qed.

(** The run of [enhance_content_preservation] on a document with a head. *)
Lemma enhance_run soup h w :
  find (py "head") soup = Some h ->
  exists u, uid_of h = Some u /\
    enhance_content_preservation (Some soup) w =
      (Ret (Some (append_to u (style_element (next_uid w)) soup)),
       World (next_uid w + 1)%N (stdout w) (files w)).
Proof.
  intros Hh. pose proof (find_is_tag _ _ _ Hh) as Ht.
  destruct h as [k s|u nm a cs]; [done|]. exists u. split; [done|].
  unfold enhance_content_preservation, new_tag, bind, alloc, ret, lift.
  simpl next_uid. simpl stdout. simpl files. cbv beta iota.
  by rewrite Hh.
Qed.

(** C10, as amended.  On a document of distinct objects that has a head
    element, [enhance_content_preservation] returns the same document object,
    changed in one place: the first head element has the new style element
    as its last child, after its former children in their order.  Two nodes
    are added in all (the style element and its text); every other element
    keeps its identity, name and attributes; and the body subtree is
    unchanged whenever the head is not inside the body, as in every
    extraction result. *)
Theorem enhance_changes_only_head (soup h : node) (w : world)
    (Huniq : unique_ids soup)
    (Hhead : find (py "head") soup = Some h) :
  exists soup' h',
    enhance_content_preservation (Some soup) w =
      (Ret (Some soup'), World (next_uid w + 1)%N (stdout w) (files w)) /\
    uid_of soup' = uid_of soup /\ name_of soup' = name_of soup /\
    (forall k, get soup' k = get soup k) /\
    find (py "head") soup' = Some h' /\
    uid_of h' = uid_of h /\ name_of h' = name_of h /\
    (forall k, get h' k = get h k) /\
    contents_of h' = contents_of h ++ [style_element (next_uid w)] /\
    List.length (descendants soup') = (List.length (descendants soup) + 2)%nat /\
    (forall b, find (py "body") soup = Some b -> ~ In h (descendants b) ->
       find (py "body") soup' = Some b) /\
    (forall d', In d' (descendants soup') ->
       In d' (descendants_of_list [style_element (next_uid w)]) \/
       exists d, In d (descendants soup) /\ uid_of d' = uid_of d /\
                 name_of d' = name_of d /\ forall k, get d' k = get d k).
Proof.
  destruct (enhance_run _ _ w Hhead) as (u & Hu & Hrun).
  destruct (find_In _ _ _ Hhead) as [Hin Hname].
  set (style := style_element (next_uid w)) in *.
  exists (append_to u style soup), (append_to u style h).
  assert (Hfind : forall nm, nm = py "head" \/ nm = py "body" ->
            find nm (append_to u style soup) = append_to u style <$> find nm soup).
  { intros nm [-> | ->]; by apply find_append_to. }
  assert (Hh' : append_to u style h =
            match h with
            | Tag u' nm a cs => Tag u' nm a (cs ++ [style])
            | _ => h
            end).
  { pose proof (unique_ids_below _ _ _ Huniq Hin Hu) as Hbelow.
    destruct h as [k s|u' nm a cs]; [done|]. injection Hu as ->.
    rewrite append_to_Tag, N.eqb_refl. simpl in Hbelow.
    by rewrite map_append_to_absent. }
  split_and!.
  - exact Hrun.
  - apply uid_of_append_to.
  - apply name_of_append_to.
  - intros k. apply get_append_to.
  - rewrite Hfind by (by left). by rewrite Hhead.
  - apply uid_of_append_to.
  - apply name_of_append_to.
  - intros k. apply get_append_to.
  - rewrite Hh'. by destruct h.
  - rewrite length_descendants_append_to.
    rewrite (count_in_NoDup u (uids [soup])); [simpl; lia|exact Huniq|].
    apply (in_uids _ h); [|done]. rewrite descendants_of_list_single. by right.
  - intros b Hb Hout. rewrite Hfind by (by right). rewrite Hb. simpl. f_equal.
    destruct (find_In _ _ _ Hb) as [Hbin Hbname].
    apply append_to_absent. apply (unique_ids_outside soup h b u Huniq Hin Hbin Hu).
    intros [->|Hd]; [|done].
    apply named_in_single in Hname, Hbname. rewrite Hname in Hbname. done.
  - intros d' Hd'. apply descendants_append_to in Hd' as [Hs|(d & Hd & ->)].
    + left. by rewrite descendants_of_list_single.
    + right. exists d. split_and!; [done|apply uid_of_append_to|apply name_of_append_to|].
      intros k. apply get_append_to.
Qed.

(** * Further properties of the code *)

(** ** The selection, by document order *)

Section Selection.

Variable E : environment.

Lemma threes_of_entries l :
  List.filter (score_is 3) (flat_map (entries_of E) l) =
  List.map (fun d => (d, 3)) (List.filter (id_matches E) l).
Proof.
  induction l as [|d l IH]; [done|].
  simpl. rewrite List.filter_app, IH. unfold entries_of.
  by destruct (id_matches E d), (class_check E d).
Qed.

Lemma twos_of_entries l :
  List.filter (score_is 2) (flat_map (entries_of E) l) =
  List.map (fun d => (d, 2)) (List.filter (class_check E) l).
Proof.
  induction l as [|d l IH]; [done|].
  simpl. rewrite List.filter_app, IH. unfold entries_of.
  by destruct (id_matches E d), (class_check E d).
Qed.

(** X1. Whenever the scoring loop completes, the node selected is the first
    main, article or div element in document order that passes the id check;
    if none does, the first that passes the class check; if none does either,
    the body element (or [None] without one).  An id match anywhere in the
    document therefore wins over every class match, however early. *)
Theorem selection_by_document_order (soup : node) (cands : list (node * Z))
    (Hcands : content_candidates_of E soup = Ret cands) :
  select_main_content soup cands = Ret (first_choice E soup).
Proof.
  pose proof (content_candidates_of_Ret _ _ _ Hcands) as Heq.
  assert (Hscores : forall e, In e cands -> snd e = 3 \/ snd e = 2).
  { intros e He. rewrite Heq in He. apply candidates_In in He as [_ [[? _]|[? _]]]; auto. }
  pose proof (sort_threes_then_twos _ Hscores) as Hsort.
  rewrite Heq in Hsort at 2 3. rewrite threes_of_entries, twos_of_entries in Hsort.
  unfold select_main_content, first_choice. rewrite Hsort.
  destruct (List.filter (id_matches E) (find_all containers soup)) as [|d3 l3] eqn:H3.
  - destruct (List.filter (class_check E) (find_all containers soup)) as [|d2 l2] eqn:H2.
    + assert (cands = []) as ->; [|done].
      apply Permutation_nil. rewrite <- (sort_by_score_reverse_perm cands), Hsort. done.
    + destruct cands as [|e cands']; [|done].
      exfalso. simpl in Hsort. discriminate Hsort.
  - destruct cands as [|e cands']; [|done].
    exfalso. simpl in Hsort. discriminate Hsort.
Qed.

End Selection.

(** ** The file name and the file *)

Section Files.

Variable E : environment.

Lemma keeps_underscore : isalnum (unicode E) 95 || contains (py " -_") [95%N] = true.
Proof. reflexivity. Qed.

(** Every character of a safe title is one the rule keeps. *)
Lemma safe_title_kept title :
  Forall (fun c => isalnum (unicode E) c || contains (py " -_") [c] = true)
         (safe_title_of E title).
Proof.
  unfold safe_title_of. apply Forall_take, Forall_forall. intros c Hc.
  apply list_elem_of_In, in_map_iff in Hc as (c0 & <- & _).
  destruct (isalnum (unicode E) c0 || contains (py " -_") [c0]) eqn:Hk; [done|].
  apply keeps_underscore.
Qed.

Lemma safe_title_fixed title :
  Forall (fun c => isalnum (unicode E) c || contains (py " -_") [c] = true) title ->
  (List.length title <= 50)%nat ->
  safe_title_of E title = title.
Proof.
  intros Hk Hlen. unfold safe_title_of.
  rewrite take_ge by (by rewrite length_map).
  induction Hk as [|c l Hc _ IH]; [done|].
  simpl in *. rewrite Hc. f_equal. apply IH. lia.
Qed.

(** X2. The file name rule is idempotent: a safe title is its own safe
    title, so a name derived once is stable under the rule. *)
Theorem safe_title_idempotent (title : pystr) :
  safe_title_of E (safe_title_of E title) = safe_title_of E title.
Proof.
  apply safe_title_fixed; [apply safe_title_kept|].
  unfold safe_title_of. rewrite length_take. lia.
Qed.

(** X3. A derived path stays in the working directory: it holds no slash,
    no backslash, no colon and no NUL, whatever the title, is the safe title
    followed by [.html], and is at most 55 characters long; for an empty
    title it is [.html]. *)
Theorem derived_path_is_local (title : pystr) :
  Forall (fun c => c <> 47 /\ c <> 92 /\ c <> 58 /\ c <> 0)%N
         (path_for (safe_title_of E title) None) /\
  path_for (safe_title_of E title) None = safe_title_of E title ++ py ".html" /\
  (5 <= List.length (path_for (safe_title_of E title) None) <= 55)%nat /\
  path_for (safe_title_of E []) None = py ".html".
Proof.
  split; [|split; [reflexivity|split; [|reflexivity]]].
  - unfold path_for. apply Forall_app. split.
    + eapply Forall_impl; [apply safe_title_kept|].
      intros c Hc. split_and!; intros ->; discriminate Hc.
    + repeat constructor; discriminate.
  - unfold path_for, safe_title_of. rewrite length_app, length_take, length_map.
    change (List.length (py ".html")) with 5%nat. lia.
Qed.


End Files.

(** ** What the Sanitizer keeps *)

Lemma get_detach u n k : get (detach u n) k = get n k.
Proof. by destruct n. Qed.

Lemma uids_detach_sublist u n : uids [detach u n] `sublist_of` uids [n].
Proof.
  induction n as [k s|u' nm a cs IH] using node_ind; [done|].
  rewrite detach_Tag, !uids_Tag. apply sublist_skip.
  induction IH as [|c cs Hc _ IHcs]; [done|].
  rewrite detach_list_cons, (uids_cons c cs). destruct (has_uid u c).
  - by apply sublist_inserts_l.
  - rewrite uids_cons. by apply sublist_app.
Qed.

Lemma uids_decompose_all_sublist xs soup :
  uids [fold_left (fun s x => decompose x s) xs soup] `sublist_of` uids [soup].
Proof.
  revert soup. induction xs as [|x xs IH]; intros soup; [done|].
  simpl. etransitivity; [apply IH|].
  unfold decompose. destruct (uid_of x); [apply uids_detach_sublist|done].
Qed.

Lemma uid_of_decompose_all xs soup :
  uid_of (fold_left (fun s x => decompose x s) xs soup) = uid_of soup /\
  name_of (fold_left (fun s x => decompose x s) xs soup) = name_of soup.
Proof.
  revert soup. induction xs as [|x xs IH]; intros soup; [done|].
  simpl. destruct (IH (decompose x soup)) as [-> ->].
  unfold decompose. destruct (uid_of x); [|done].
  by rewrite uid_of_detach, name_of_detach.
Qed.

Lemma html_attrs_detach u n : html_attrs n = true -> html_attrs (detach u n) = true.
Proof.
  unfold html_attrs. rewrite !forallb_forall. intros H d' Hd'.
  destruct (detach_descendants _ _ _ Hd') as (d & Hd & -> & _).
  unfold id_is_str. rewrite get_detach. by apply H.
Qed.

Lemma html_attrs_decompose_all xs soup :
  html_attrs soup = true ->
  html_attrs (fold_left (fun s x => decompose x s) xs soup) = true.
Proof.
  revert soup. induction xs as [|x xs IH]; intros soup H; [done|].
  simpl. apply IH. unfold decompose. destruct (uid_of x); [|done].
  by apply html_attrs_detach.
Qed.

(** X5. The removal pass keeps what the later stages rely on: the
    document object is the same, its elements are still pairwise distinct
    objects, every [id] is still a string, and no identity is introduced
    (identities unused before the pass are unused after it). *)
Theorem remove_noise_keeps_invariants (soup : node)
    (Huniq : unique_ids soup) (Hattrs : html_attrs soup = true) :
  unique_ids (remove_noise soup) /\
  html_attrs (remove_noise soup) = true /\
  uid_of (remove_noise soup) = uid_of soup /\
  name_of (remove_noise soup) = name_of soup /\
  (forall n, fresh_for n soup -> fresh_for n (remove_noise soup)).
Proof.
  unfold remove_noise. split_and!.
  - eapply sublist_NoDup; [exact Huniq|apply uids_decompose_all_sublist].
  - by apply html_attrs_decompose_all.
  - apply uid_of_decompose_all.
  - apply uid_of_decompose_all.
  - intros n Hn v Hv. apply Hn, list_elem_of_In.
    eapply elem_of_sublist; [by apply list_elem_of_In|apply uids_decompose_all_sublist].
Qed.

(** ** The Fetcher on a response *)

Section Fetch.

Variable E : environment.

(** X6. When [requests.get] returns a response, [extract_web_content]
    gives up exactly for the statuses 400 to 599: there it prints the error
    and returns [None].  For every other status (also 1xx, 3xx and 600 up)
    the markup goes to the parser: when the parser accepts it, the call
    prints nothing and returns the parsed document after the removal pass,
    in which no script, style, iframe, nav, footer or aside element is
    left; when the parser rejects it, the [ParserRejectedMarkup] of bs4 is
    not caught by the [except] clause and leaves the function, with nothing
    printed.  No file is touched in any case. *)
Theorem response_status_decides (url : pystr) (w : world) (r : response)
    (Hget : requests_get E url = Ret r) :
  (400 <= status_code r < 600 ->
     extract_web_content E url w =
       (Ret None,
        World (next_uid w) (stdout w ++ [py "Error fetching URL: " ++ http_error_msg E url r])
          (files w))) /\
  (forall soup n,
     ~ 400 <= status_code r < 600 ->
     html_parser E (content r) (next_uid w) = Parsed soup n ->
     extract_web_content E url w =
       (Ret (Some (remove_noise soup)), World n (stdout w) (files w)) /\
     find_all noise (remove_noise soup) = []) /\
  (forall msg,
     ~ 400 <= status_code r < 600 ->
     html_parser E (content r) (next_uid w) = Rejected msg ->
     extract_web_content E url w = (Raise (ParserRejectedMarkup msg), w)) /\
  (fst (extract_web_content E url w) = Ret None <-> 400 <= status_code r < 600) /\
  files (snd (extract_web_content E url w)) = files w.
Proof.
  assert (Hbad : 400 <= status_code r < 600 ->
     extract_web_content E url w =
       (Ret None,
        World (next_uid w) (stdout w ++ [py "Error fetching URL: " ++ http_error_msg E url r])
          (files w))).
  { intros [Hlo Hhi].
    unfold extract_web_content, try_except_RequestException, bind, lift. rewrite Hget.
    unfold raise_for_status.
    replace (400 <=? status_code r) with true by (symmetry; by apply Z.leb_le).
    replace (status_code r <? 600) with true by (symmetry; by apply Z.ltb_lt).
    reflexivity. }
  assert (Hstatus : ~ 400 <= status_code r < 600 ->
     (400 <=? status_code r) && (status_code r <? 600) = false).
  { intros Hno. apply andb_false_iff.
    destruct (Z.leb_spec 400 (status_code r)); [|by left].
    destruct (Z.ltb_spec (status_code r) 600); [|by right]. lia. }
  assert (Hgood : forall soup n, ~ 400 <= status_code r < 600 ->
     html_parser E (content r) (next_uid w) = Parsed soup n ->
     extract_web_content E url w =
       (Ret (Some (remove_noise soup)), World n (stdout w) (files w))).
  { intros soup n Hno Hparse.
    unfold extract_web_content, try_except_RequestException, bind, lift. rewrite Hget.
    unfold raise_for_status. rewrite (Hstatus Hno).
    unfold ret, BeautifulSoup. by rewrite Hparse. }
  assert (Hrejected : forall msg, ~ 400 <= status_code r < 600 ->
     html_parser E (content r) (next_uid w) = Rejected msg ->
     extract_web_content E url w = (Raise (ParserRejectedMarkup msg), w)).
  { intros msg Hno Hparse.
    unfold extract_web_content, try_except_RequestException, bind, lift. rewrite Hget.
    unfold raise_for_status. rewrite (Hstatus Hno).
    unfold ret, BeautifulSoup. by rewrite Hparse. }
  split_and!; [done| |done| |].
  - intros soup n Hno Hparse. split; [by apply Hgood|apply find_all_nil, remove_noise_clean].
  - split.
    + intros Hnone. destruct (decide (400 <= status_code r < 600)) as [|Hno]; [done|].
      destruct (html_parser E (content r) (next_uid w)) as [soup n|msg] eqn:Hparse.
      * rewrite (Hgood soup n Hno eq_refl) in Hnone. discriminate Hnone.
      * rewrite (Hrejected msg Hno eq_refl) in Hnone. discriminate Hnone.
    + intros H. by rewrite (Hbad H).
  - apply keeps_files_extract_web_content.
Qed.

End Fetch.

(** ** The Enhancer on a document without a head *)

Lemma prepend_to_Tag u c u' nm a cs :
  prepend_to u c (Tag u' nm a cs) =
  Tag u' nm a ((if N.eqb u' u then [c] else []) ++ List.map (prepend_to u c) cs).
Proof. reflexivity. Qed.

Lemma uid_of_prepend_to u c n : uid_of (prepend_to u c n) = uid_of n.
Proof. by destruct n. Qed.

Lemma name_of_prepend_to u c n : name_of (prepend_to u c n) = name_of n.
Proof. by destruct n. Qed.

Lemma get_prepend_to u c n k : get (prepend_to u c n) k = get n k.
Proof. by destruct n. Qed.

Lemma named_in_prepend_to names u c n :
  named_in names (prepend_to u c n) = named_in names n.
Proof. by destruct n. Qed.

Lemma prepend_to_absent u c n : ~ In u (uids [n]) -> prepend_to u c n = n.
Proof.
  induction n as [k s|u' nm a cs IH] using node_ind; [done|].
  rewrite uids_Tag, prepend_to_Tag. intros Hu.
  assert (Hne : N.eqb u' u = false).
  { apply N.eqb_neq. intros ->. apply Hu. by left. }
  rewrite Hne. simpl. f_equal.
  assert (Hcs : ~ In u (uids cs)) by (intros H; apply Hu; by right).
  clear Hu Hne. induction IH as [|x cs Hx _ IHcs]; [done|].
  rewrite uids_cons in Hcs. simpl. f_equal.
  - apply Hx. intros H. apply Hcs, in_or_app. by left.
  - apply IHcs. intros H. apply Hcs, in_or_app. by right.
Qed.

Lemma map_prepend_to_absent u c cs :
  ~ In u (uids cs) -> List.map (prepend_to u c) cs = cs.
Proof.
  induction cs as [|x cs IH]; [done|].
  rewrite uids_cons. intros Hu. simpl. f_equal.
  - apply prepend_to_absent. intros H. apply Hu, in_or_app. by left.
  - apply IH. intros H. apply Hu, in_or_app. by right.
Qed.

Lemma find_all_prepend_to names u c n :
  named_in names c = false -> find_all names c = [] ->
  find_all names (prepend_to u c n) = List.map (prepend_to u c) (find_all names n).
Proof.
  intros Hc Hbelow.
  induction n as [k s|u' nm a cs IH] using node_ind; [done|].
  unfold find_all. rewrite prepend_to_Tag, !descendants_Tag, descendants_of_list_app.
  rewrite List.filter_app.
  assert (Hnew : List.filter (named_in names)
            (descendants_of_list (if N.eqb u' u then [c] else [])) = []).
  { destruct (N.eqb u' u); [|done].
    rewrite descendants_of_list_single. simpl. by rewrite Hc. }
  rewrite Hnew. simpl app. clear Hnew.
  induction IH as [|x cs Hx _ IHcs]; [done|].
  simpl List.map. rewrite !descendants_of_list_cons.
  change (List.filter (named_in names) (?y :: ?l))
    with (if named_in names y then y :: List.filter (named_in names) l
          else List.filter (named_in names) l).
  rewrite !List.filter_app, named_in_prepend_to, IHcs.
  unfold find_all in Hx. rewrite Hx.
  destruct (named_in names x); simpl; by rewrite List.map_app.
Qed.

Lemma find_prepend_to nm u c n :
  named_in [nm] c = false -> find_all [nm] c = [] ->
  find nm (prepend_to u c n) = prepend_to u c <$> find nm n.
Proof.
  intros Hc Hbelow. unfold find. rewrite find_all_prepend_to by done.
  by destruct (find_all [nm] n).
Qed.

Lemma descendants_prepend_to u c n d' :
  In d' (descendants (prepend_to u c n)) ->
  In d' (c :: descendants c) \/
  exists d, In d (descendants n) /\ d' = prepend_to u c d.
Proof.
  revert d'. induction n as [k s|u' nm a cs IH] using node_ind; intros d'; [done|].
  rewrite prepend_to_Tag, !descendants_Tag, descendants_of_list_app.
  intros Hin. apply in_app_or in Hin as [Hin|Hin].
  - left. destruct (N.eqb u' u); [|done].
    by rewrite descendants_of_list_single in Hin.
  - induction IH as [|x cs Hx _ IHcs]; [done|].
    simpl List.map in Hin. rewrite descendants_of_list_cons in Hin.
    destruct Hin as [<-|Hin].
    { right. exists x. split; [rewrite descendants_of_list_cons; by left|done]. }
    apply in_app_or in Hin as [Hin|Hin].
    + destruct (Hx _ Hin) as [Hc|(d & Hd & ->)]; [by left|].
      right. exists d. split; [|done].
      rewrite descendants_of_list_cons. right. apply in_or_app. by left.
    + destruct (IHcs Hin) as [Hc|(d & Hd & ->)]; [by left|].
      right. exists d. split; [|done].
      rewrite descendants_of_list_cons. right. apply in_or_app. by right.
Qed.

(** The child arrives wherever an element has the identity [u]. *)
Lemma prepend_to_adds u c n h :
  In h (descendants n) -> uid_of h = Some u -> In c (descendants (prepend_to u c n)).
Proof.
  intros Hh Hu.
  induction n as [k s|u' nm a cs IH] using node_ind; [done|].
  rewrite prepend_to_Tag, descendants_Tag, descendants_of_list_app in *.
  apply in_or_app. right.
  induction IH as [|x cs Hx _ IHcs]; [done|].
  simpl List.map. rewrite descendants_of_list_cons in *.
  destruct Hh as [<-|Hh].
  - right. apply in_or_app. left.
    clear Hx. destruct x as [k s|uh nmh ah csh]; [done|]. injection Hu as ->.
    rewrite prepend_to_Tag, descendants_Tag, N.eqb_refl. by left.
  - apply in_app_or in Hh as [Hh|Hh].
    + right. apply in_or_app. left. by apply Hx.
    + right. apply in_or_app. right. by apply IHcs.
Qed.

(** The run of [enhance_content_preservation] on a document without a head
    element and with an html element. *)
Lemma enhance_run_no_head soup h w :
  find (py "head") soup = None ->
  find (py "html") soup = Some h ->
  exists u, uid_of h = Some u /\
    enhance_content_preservation (Some soup) w =
      (Ret (Some (prepend_to u (new_head (next_uid w)) soup)),
       World (next_uid w + 1 + 1)%N (stdout w) (files w)).
Proof.
  intros Hnone Hh. pose proof (find_is_tag _ _ _ Hh) as Ht.
  destruct h as [k s|u nm a cs]; [done|]. exists u. split; [done|].
  unfold enhance_content_preservation, new_tag, bind, alloc, ret, lift.
  simpl next_uid. simpl stdout. simpl files. cbv beta iota.
  rewrite Hnone. cbv beta iota. simpl next_uid. simpl stdout. simpl files.
  unfold append_new, uid_of, set_string. rewrite append_to_Tag, N.eqb_refl.
  cbv beta iota. rewrite Hh. reflexivity.
Qed.

(** X7. On a document of distinct objects without a head element and with
    an html element, [enhance_content_preservation] makes a head that holds
    the style element and inserts it as the first child of the html element,
    before its former children; that head is the head of the document
    returned, which is the same document object; and the body subtree is
    unchanged whenever the html element is not inside the body. *)
Theorem enhance_creates_head (soup h : node) (w : world)
    (Huniq : unique_ids soup)
    (Hnone : find (py "head") soup = None)
    (Hhtml : find (py "html") soup = Some h) :
  exists soup' h',
    enhance_content_preservation (Some soup) w =
      (Ret (Some soup'), World (next_uid w + 1 + 1)%N (stdout w) (files w)) /\
    uid_of soup' = uid_of soup /\ name_of soup' = name_of soup /\
    find (py "head") soup' = Some (new_head (next_uid w)) /\
    find (py "html") soup' = Some h' /\
    uid_of h' = uid_of h /\ name_of h' = name_of h /\
    (forall k, get h' k = get h k) /\
    contents_of h' = new_head (next_uid w) :: contents_of h /\
    (forall b, find (py "body") soup = Some b -> ~ In h (descendants b) ->
       find (py "body") soup' = Some b).
Proof.
  destruct (enhance_run_no_head _ _ w Hnone Hhtml) as (u & Hu & Hrun).
  destruct (find_In _ _ _ Hhtml) as [Hin Hname].
  set (c := new_head (next_uid w)) in *.
  exists (prepend_to u c soup), (prepend_to u c h).
  assert (Hfind : forall nm, nm = py "html" \/ nm = py "body" ->
            find nm (prepend_to u c soup) = prepend_to u c <$> find nm soup).
  { intros nm [-> | ->]; by apply find_prepend_to. }
  split_and!.
  - exact Hrun.
  - apply uid_of_prepend_to.
  - apply name_of_prepend_to.
  - unfold find.
    assert (Hall : forall x, In x (find_all [py "head"] (prepend_to u c soup)) -> x = c).
    { intros x Hx. apply find_all_In in Hx as [Hx Hn].
      apply descendants_prepend_to in Hx as [[<-|Hx]|(d & Hd & ->)]; [done| |].
      - exfalso. unfold c, new_head in Hx. rewrite descendants_Tag in Hx.
        rewrite descendants_of_list_single in Hx.
        destruct Hx as [<-|Hx]; [discriminate Hn|].
        unfold style_element in Hx. rewrite descendants_Tag, descendants_of_list_single in Hx.
        destruct Hx as [<-|[]]. discriminate Hn.
      - exfalso. rewrite named_in_prepend_to in Hn.
        assert (Hd' : In d (find_all [py "head"] soup)) by (apply find_all_In; by split).
        unfold find in Hnone. by destruct (find_all [py "head"] soup). }
    assert (Hc : In c (find_all [py "head"] (prepend_to u c soup))).
    { apply find_all_In. split; [by eapply prepend_to_adds|reflexivity]. }
    destruct (find_all [py "head"] (prepend_to u c soup)) as [|x l]; [done|].
    simpl. f_equal. apply Hall. by left.
  - rewrite Hfind by (by left). by rewrite Hhtml.
  - apply uid_of_prepend_to.
  - apply name_of_prepend_to.
  - intros k. apply get_prepend_to.
  - pose proof (unique_ids_below _ _ _ Huniq Hin Hu) as Hbelow.
    destruct h as [k s|u' nm a cs]; [done|]. injection Hu as ->.
    rewrite prepend_to_Tag, N.eqb_refl. simpl in Hbelow. simpl.
    by rewrite map_prepend_to_absent.
  - intros b Hb Hout. rewrite Hfind by (by right). rewrite Hb. simpl. f_equal.
    destruct (find_In _ _ _ Hb) as [Hbin Hbname].
    apply prepend_to_absent. apply (unique_ids_outside soup h b u Huniq Hin Hbin Hu).
    intros [->|Hd]; [|done].
    apply named_in_single in Hname, Hbname. rewrite Hname in Hbname. done.
Qed.

(** X8. For a document, [enhance_content_preservation] returns a document
    exactly when there is a head or an html element to receive the style
    element; the document returned is the same object.  For a document with
    neither (the tree of a bare fragment) the call ends in the
    AttributeError of [soup.html.insert], after two objects were made. *)
Theorem enhance_returns_iff (soup : node) (w : world) :
  (find (py "head") soup <> None \/ find (py "html") soup <> None ->
     exists doc, fst (enhance_content_preservation (Some soup) w) = Ret (Some doc) /\
                 uid_of doc = uid_of soup) /\
  (find (py "head") soup = None -> find (py "html") soup = None ->
     enhance_content_preservation (Some soup) w =
       (Raise (AttributeError (py "'NoneType' object has no attribute 'insert'")),
        World (next_uid w + 1 + 1)%N (stdout w) (files w))) /\
  (forall doc, fst (enhance_content_preservation (Some soup) w) = Ret doc ->
     doc <> None /\
     (find (py "head") soup <> None \/ find (py "html") soup <> None)).
Proof.
  assert (Hraise : find (py "head") soup = None -> find (py "html") soup = None ->
     enhance_content_preservation (Some soup) w =
       (Raise (AttributeError (py "'NoneType' object has no attribute 'insert'")),
        World (next_uid w + 1 + 1)%N (stdout w) (files w))).
  { intros Hh Hm.
    unfold enhance_content_preservation, new_tag, bind, alloc, ret, lift.
    simpl next_uid. simpl stdout. simpl files. cbv beta iota.
    rewrite Hh. cbv beta iota. simpl next_uid. simpl stdout. simpl files.
    unfold append_new, uid_of, set_string. rewrite append_to_Tag, N.eqb_refl.
    cbv beta iota. by rewrite Hm. }
  assert (Hret : find (py "head") soup <> None \/ find (py "html") soup <> None ->
     exists doc, fst (enhance_content_preservation (Some soup) w) = Ret (Some doc) /\
                 uid_of doc = uid_of soup).
  { intros Hsome. destruct (find (py "head") soup) as [h|] eqn:Hh.
    - destruct (enhance_run _ _ w Hh) as (u & _ & ->).
      eexists. split; [reflexivity|apply uid_of_append_to].
    - destruct (find (py "html") soup) as [m|] eqn:Hm; [|by destruct Hsome].
      destruct (enhance_run_no_head _ _ w Hh Hm) as (u & _ & ->).
      eexists. split; [reflexivity|apply uid_of_prepend_to]. }
  split_and!; [exact Hret|exact Hraise|].
  intros doc Hdoc.
  destruct (find (py "head") soup) as [h|] eqn:Hh;
    [|destruct (find (py "html") soup) as [m|] eqn:Hm].
  - destruct Hret as (d & Hd & _); [by left|].
    rewrite Hd in Hdoc. injection Hdoc as <-. split; [done|by left].
  - destruct Hret as (d & Hd & _); [by right|].
    rewrite Hd in Hdoc. injection Hdoc as <-. split; [done|by right].
  - rewrite Hraise in Hdoc by done. discriminate Hdoc.
Qed.

(** ** From the selection to the document that is saved *)

Lemma uids_of_descendant n d v :
  In d (descendants n) -> In v (uids [d]) -> In v (uids [n]).
Proof.
  intros Hd Hv. apply uids_in in Hv as (x & Hx & Hu).
  rewrite descendants_of_list_single in Hx.
  apply (in_uids _ x); [|done]. rewrite descendants_of_list_single. right.
  destruct Hx as [<-|Hx]; [done|]. by eapply descendants_trans.
Qed.

Lemma NoDup_uids_descendant n d :
  unique_ids n -> In d (descendants n) -> NoDup (uids [d]).
Proof.
  intros Hnd Hd. apply unique_ids_descendants in Hnd.
  destruct (descendants_split _ _ Hd) as (pre & post & Heq).
  rewrite Heq in Hnd.
  change (pre ++ d :: descendants d ++ post)
    with (pre ++ (d :: descendants d) ++ post) in Hnd.
  rewrite !omap_app in Hnd.
  apply NoDup_app in Hnd as (_ & _ & Hnd). apply NoDup_app in Hnd as (Hnd & _ & _).
  unfold uids. by rewrite descendants_of_list_single.
Qed.

Lemma find_head_extraction_result u sel :
  find (py "head") (extraction_result u sel) =
  Some (Tag (u + 1 + 1) (py "head") ∅
          [Tag (u + 1 + 1 + 1) (py "meta") {[ py "charset" := AStr (py "utf-8") ]} []])%N.
Proof. reflexivity. Qed.

(** The append to the head of an extraction result whose selection does
    not hold the identity of that head. *)
Lemma append_to_extraction_result u sel c :
  ~ In (u + 1 + 1)%N (uids [sel]) ->
  append_to (u + 1 + 1) c (extraction_result u sel) =
  Tag u (py "[document]") ∅
    [Tag (u + 1) (py "html") ∅
       [Tag (u + 1 + 1) (py "head") ∅
          [Tag (u + 1 + 1 + 1) (py "meta") {[ py "charset" := AStr (py "utf-8") ]} []; c];
        Tag (u + 1 + 1 + 1 + 1) (py "body") ∅ [sel]]]%N.
Proof.
  intros Hsel. unfold extraction_result. simpl.
  rewrite (append_to_absent _ _ sel Hsel).
  rewrite N.eqb_refl.
  replace (N.eqb u (u + 1 + 1))%N with false by (symmetry; apply N.eqb_neq; lia).
  replace (N.eqb (u + 1) (u + 1 + 1))%N with false by (symmetry; apply N.eqb_neq; lia).
  replace (N.eqb (u + 1 + 1 + 1) (u + 1 + 1))%N with false by (symmetry; apply N.eqb_neq; lia).
  replace (N.eqb (u + 1 + 1 + 1 + 1) (u + 1 + 1))%N with false
    by (symmetry; apply N.eqb_neq; lia).
  reflexivity.
Qed.

Lemma descendants_final_document u sel :
  descendants (final_document u sel) =
  [Tag (u + 1) (py "html") ∅
     [Tag (u + 1 + 1) (py "head") ∅
        [Tag (u + 1 + 1 + 1) (py "meta") {[ py "charset" := AStr (py "utf-8") ]} [];
         style_element (u + 1 + 1 + 1 + 1 + 1)];
      Tag (u + 1 + 1 + 1 + 1) (py "body") ∅ [sel]];
   Tag (u + 1 + 1) (py "head") ∅
     [Tag (u + 1 + 1 + 1) (py "meta") {[ py "charset" := AStr (py "utf-8") ]} [];
      style_element (u + 1 + 1 + 1 + 1 + 1)];
   Tag (u + 1 + 1 + 1) (py "meta") {[ py "charset" := AStr (py "utf-8") ]} [];
   style_element (u + 1 + 1 + 1 + 1 + 1);
   NavigableString PlainString preservation_css;
   Tag (u + 1 + 1 + 1 + 1) (py "body") ∅ [sel]]%N ++ sel :: descendants sel.
Proof.
  unfold final_document, style_element.
  repeat (rewrite ?descendants_Tag, ?descendants_of_list_cons, ?descendants_of_list_single).
  simpl. by rewrite ?app_nil_r.
Qed.

Section Pipeline.

Variable E : environment.

(** The two middle stages in a row. *)
Lemma extract_then_enhance_run soup w cands sel :
  content_candidates_of E soup = Ret cands ->
  select_main_content soup cands = Ret (Some sel) ->
  fresh_for (next_uid w) soup ->
  extract_core_content E (Some soup) w =
    (Ret (Some (extraction_result (next_uid w) sel), Some (decompose sel soup)),
     World (next_uid w + 1 + 1 + 1 + 1 + 1)%N (stdout w) (files w)) /\
  enhance_content_preservation (Some (extraction_result (next_uid w) sel))
    (World (next_uid w + 1 + 1 + 1 + 1 + 1)%N (stdout w) (files w)) =
    (Ret (Some (final_document (next_uid w) sel)),
     World (next_uid w + 1 + 1 + 1 + 1 + 1 + 1)%N (stdout w) (files w)).
Proof.
  intros Hc Hs Hfresh. split; [by eapply extract_core_content_run|].
  destruct (select_main_content_is_tag _ _ _ _ Hc Hs) as [_ Hin].
  destruct (enhance_run _ _ (World (next_uid w + 1 + 1 + 1 + 1 + 1)%N (stdout w) (files w))
              (find_head_extraction_result (next_uid w) sel)) as (u & Hu & ->).
  injection Hu as <-. simpl next_uid. simpl stdout. simpl files.
  rewrite append_to_extraction_result; [reflexivity|].
  intros Hv. apply (uids_of_descendant soup) in Hv; [|done].
  apply Hfresh in Hv. lia.
Qed.

(** X9. After extraction and enhancement of a document whose identities
    are all in use below the next free one, the document handed to the
    Writer is exactly the skeleton: an html element with a head that holds
    the charset meta tag and then the style element, and a body that holds
    the selected node alone, unchanged.  Its head and its body are never
    missing, and if the source elements were distinct objects, so are the
    elements of this document. *)
Theorem extract_then_enhance (soup : node) (w : world)
    (cands : list (node * Z)) (sel : node)
    (Hcands : content_candidates_of E soup = Ret cands)
    (Hsel : select_main_content soup cands = Ret (Some sel))
    (Hfresh : fresh_for (next_uid w) soup) :
  exists w1,
    extract_core_content E (Some soup) w =
      (Ret (Some (extraction_result (next_uid w) sel), Some (decompose sel soup)), w1) /\
    enhance_content_preservation (Some (extraction_result (next_uid w) sel)) w1 =
      (Ret (Some (final_document (next_uid w) sel)),
       World (next_uid w + 1 + 1 + 1 + 1 + 1 + 1)%N (stdout w) (files w)) /\
    find (py "head") (final_document (next_uid w) sel) =
      Some (Tag (next_uid w + 1 + 1) (py "head") ∅
              [Tag (next_uid w + 1 + 1 + 1) (py "meta")
                 {[ py "charset" := AStr (py "utf-8") ]} [];
               style_element (next_uid w + 1 + 1 + 1 + 1 + 1)])%N /\
    find (py "body") (final_document (next_uid w) sel) =
      Some (Tag (next_uid w + 1 + 1 + 1 + 1)%N (py "body") ∅ [sel]) /\
    (unique_ids soup -> unique_ids (final_document (next_uid w) sel)).
Proof.
  destruct (extract_then_enhance_run _ _ _ _ Hcands Hsel Hfresh) as [Hx He].
  eexists. split_and!; [exact Hx|exact He|reflexivity|reflexivity|].
  intros Huniq.
  destruct (select_main_content_is_tag _ _ _ _ Hcands Hsel) as [_ Hin].
  pose proof (NoDup_uids_descendant _ _ Huniq Hin) as Hnd.
  assert (Hlt : forall v, v ∈ uids [sel] -> (v < next_uid w)%N).
  { intros v Hv. apply Hfresh, (uids_of_descendant soup sel); [done|].
    by apply list_elem_of_In. }
  unfold unique_ids, uids. rewrite descendants_of_list_single, descendants_final_document.
  rewrite app_comm_cons, omap_app, <- (descendants_of_list_single sel).
  fold (uids [sel]). set (u := next_uid w) in *.
  apply NoDup_app. split_and!; [|intros v Hv Hv2|done].
  - simpl. repeat (apply NoDup_cons; split; [rewrite ?elem_of_cons, elem_of_nil; lia|]).
    apply NoDup_nil_2.
  - apply Hlt in Hv2. simpl in Hv.
    rewrite !elem_of_cons, elem_of_nil in Hv. lia.
Qed.

End Pipeline.

(** ** The runs of the driver *)


Section Runs.

Variable E : environment.








End Runs.

(** ** The keyword test *)

Lemma is_prefix_spec p s : is_prefix p s = true <-> exists post, s = p ++ post.
Proof.
  revert s. induction p as [|a p IH]; intros s.
  - simpl. split; [intros _; by exists s|by intros _].
  - destruct s as [|b s]; simpl.
    + split; [done|]. by intros (post & H).
    + rewrite andb_true_iff, N.eqb_eq, IH. split.
      * intros [-> (post & ->)]. by exists post.
      * intros (post & [= -> ->]). split; [done|by exists post].
Qed.

Lemma contains_spec s term :
  contains s term = true <-> exists pre post, s = pre ++ term ++ post.
Proof.
  induction s as [|c s IH].
  - simpl. rewrite orb_false_r, is_prefix_spec. split.
    + intros (post & H). by exists [], post.
    + intros (pre & post & H). symmetry in H.
      apply app_eq_nil in H as [-> H]. by exists post.
  - simpl. rewrite orb_true_iff, is_prefix_spec, IH. split.
    + intros [(post & ->)|(pre & post & ->)]; [by exists [], post|by exists (c :: pre), post].
    + intros (pre & post & H). destruct pre as [|c' pre].
      * left. by exists post.
      * right. injection H as -> ->. by exists pre, post.
Qed.

(** X13. The keyword test is a substring test: a string passes exactly
    when it can be cut into a part before, one of the five keywords
    content, main, article, post and entry, and a part after.  The keyword
    may thus sit inside a longer word. *)
Theorem any_term_in_spec (s : pystr) :
  any_term_in s = true <->
  exists term pre post, In term terms /\ s = pre ++ term ++ post.
Proof.
  unfold any_term_in. rewrite existsb_exists. split.
  - intros (term & Hin & Hc). apply contains_spec in Hc as (pre & post & ->).
    by exists term, pre, post.
  - intros (term & pre & post & Hin & ->). exists term. split; [done|].
    apply contains_spec. by exists pre, post.
Qed.

(** ** The class check, token by token *)

Lemma contains_app_l a b t : contains a t = true -> contains (a ++ b) t = true.
Proof.
  rewrite !contains_spec. intros (pre & post & ->). exists pre, (post ++ b).
  by rewrite <- !app_assoc.
Qed.

Lemma contains_app_r a b t : contains b t = true -> contains (a ++ b) t = true.
Proof.
  rewrite !contains_spec. intros (pre & post & ->). exists (a ++ pre), post.
  by rewrite <- !app_assoc.
Qed.

(** A word without a space that occurs in [a ++ " " ++ b] occurs in [a] or
    in [b]. *)
Lemma contains_across_space a b t :
  ~ In 32%N t -> t <> [] ->
  contains (a ++ [32%N] ++ b) t = true ->
  contains a t = true \/ contains b t = true.
Proof.
  intros Hsp Hne. rewrite !contains_spec. intros (pre & post & Heq).
  apply app_eq_app in Heq as (l & [[Ha Hr]|[Hp Hr]]).
  - apply app_eq_app in Hr as (l' & [[Ht Hr]|[Hl Hr]]).
    + destruct l' as [|c l''].
      * left. exists pre, []. rewrite app_nil_r in *. by subst.
      * exfalso. simpl in Hr. injection Hr as <- _. apply Hsp. subst t.
        apply in_or_app. right. by left.
    + left. exists pre, l'. by subst.
  - destruct l as [|c l'].
    + exfalso. simpl in Hr. destruct t as [|c t]; [done|].
      simpl in Hr. injection Hr as <- _. apply Hsp. by left.
    + right. simpl in Hr. injection Hr as _ ->. by exists l', post.
Qed.

Lemma contains_join l t :
  ~ In 32%N t -> t <> [] ->
  contains (join [32%N] l) t = true <-> exists token, In token l /\ contains token t = true.
Proof.
  intros Hsp Hne. induction l as [|p l IH].
  - simpl. split; [|by intros (? & [] & _)].
    rewrite orb_false_r. destruct t; [done|]. done.
  - destruct l as [|q l].
    + simpl. split; [intros H; exists p; split; [by left|done]|].
      by intros (token & [<-|[]] & H).
    + change (join [32%N] (p :: q :: l)) with (p ++ [32%N] ++ join [32%N] (q :: l)). split.
      * intros H. destruct (contains_across_space _ _ _ Hsp Hne H) as [H1|H1].
        -- exists p. split; [by left|done].
        -- apply IH in H1 as (token & Hin & H1). exists token. split; [by right|done].
      * intros (token & [<-|Hin] & H); [by apply contains_app_l|].
        apply contains_app_r, contains_app_r. apply IH. by exists token.
Qed.

Lemma map_join (f : N -> N) sep l :
  List.map f (join sep l) = join (List.map f sep) (List.map (List.map f) l).
Proof.
  induction l as [|p l IH]; [done|].
  destruct l as [|q l]; [done|].
  change (join sep (p :: q :: l)) with (p ++ sep ++ join sep (q :: l)).
  rewrite !List.map_app, IH. reflexivity.
Qed.

Lemma forallb_is_ascii_join l :
  Forall (fun token => forallb is_ascii token = true) l ->
  forallb is_ascii (join [32%N] l) = true.
Proof.
  induction 1 as [|p l Hp Hl IH]; [done|].
  destruct l as [|q l]; [done|].
  change (join [32%N] (p :: q :: l)) with (p ++ [32%N] ++ join [32%N] (q :: l)).
  rewrite !forallb_app, Hp, IH. reflexivity.
Qed.

Lemma terms_without_space t : In t terms -> ~ In 32%N t /\ t <> [].
Proof.
  intros Ht. vm_compute in Ht.
  repeat (destruct Ht as [<-|Ht];
          [split; [intros H; vm_compute in H; intuition discriminate|discriminate]|]).
  destruct Ht.
Qed.

Section Tokens.

Variable E : environment.

(** X15. For an element whose class tokens are ASCII, the class check
    passes exactly when one of the tokens, in lower case, holds one of the
    keywords: joining the tokens with spaces never makes a match that no
    token has, since no keyword holds a space.  An element with an empty
    class list does not pass. *)
Theorem class_check_by_token (d : node) (l : list pystr)
    (Hclass : get d (py "class") = Some (AList l))
    (Hascii : Forall (fun token => forallb is_ascii token = true) l) :
  class_check E d = true <->
  exists token, In token l /\ any_term_in (lower (unicode E) token) = true.
Proof.
  unfold class_check. rewrite Hclass. unfold attr_truthy, class_str.
  change (py " ") with [32%N].
  assert (Hlow : lower (unicode E) (join [32%N] l) =
                 join [32%N] (List.map (lower (unicode E)) l)).
  { unfold lower at 1. rewrite forallb_is_ascii_join by done.
    rewrite map_join. f_equal. clear Hclass.
    induction Hascii as [|p l' Hp _ IH]; [done|].
    simpl. unfold lower at 1. by rewrite Hp, IH. }
  rewrite Hlow, andb_true_iff. unfold any_term_in. split.
  - intros [_ Hany]. apply existsb_exists in Hany as (t & Ht & Hc).
    destruct (terms_without_space t Ht) as [Hsp Hne].
    apply contains_join in Hc as (token' & Hin & Hc); [|done..].
    apply in_map_iff in Hin as (token & <- & Hin).
    exists token. split; [done|]. apply existsb_exists. by exists t.
  - intros (token & Hin & Hany). split; [by destruct l|].
    apply existsb_exists in Hany as (t & Ht & Hc).
    destruct (terms_without_space t Ht) as [Hsp Hne].
    apply existsb_exists. exists t. split; [done|].
    apply contains_join; [done..|]. exists (lower (unicode E) token).
    split; [|done]. apply in_map_iff. by exists token.
Qed.

End Tokens.

(** ** What is left of the noise in the document that is saved *)

Section Saved.

Variable E : environment.

(** X14. At the end of the pipeline the only script, style, iframe, nav,
    footer or aside element of the document is the style element that the
    Enhancer added: the node selected from the tree after the removal pass
    holds none. *)
Theorem saved_document_has_one_style (soup : node) (cands : list (node * Z))
    (sel : node) (u : N)
    (Hcands : content_candidates_of E (remove_noise soup) = Ret cands)
    (Hsel : select_main_content (remove_noise soup) cands = Ret (Some sel)) :
  (forall d, In d (sel :: descendants sel) -> named_in noise d = false) /\
  find_all noise (final_document u sel) = [style_element (u + 1 + 1 + 1 + 1 + 1)].
Proof.
  destruct (select_main_content_is_tag _ _ _ _ Hcands Hsel) as [_ Hin].
  assert (Hclean : forall d, In d (sel :: descendants sel) -> named_in noise d = false).
  { intros d [<-|Hd]; [by apply (remove_noise_clean soup)|].
    apply (remove_noise_clean soup). by eapply descendants_trans. }
  split; [exact Hclean|].
  unfold find_all. rewrite descendants_final_document, List.filter_app.
  rewrite (filter_all_false _ (sel :: descendants sel)) by exact Hclean.
  reflexivity.
Qed.

End Saved.

(** * The properties on the sample documents *)

Ltac in_list := vm_compute; repeat (first [left; reflexivity | right]).

Example remove_noise_doc_noisy :
  remove_noise doc_noisy =
  el 0 "[document]" [] [el 1 "body" [] [el 5 "p" [] [txt "text"]]].
Proof. vm_compute. reflexivity. Qed.

Example remove_noise_doc_noisy_prune : remove_noise doc_noisy = prune noise doc_noisy.
Proof. vm_compute. reflexivity. Qed.

Example candidates_doc_dual : content_candidates_of demo_env doc_dual = Ret cands_dual.
Proof. vm_compute. reflexivity. Qed.

Example sort_doc_dual :
  sort_by_score_reverse cands_dual =
  [(article_dual, 3); (div_side, 2); (article_dual, 2); (div_entry, 2)].
Proof. vm_compute. reflexivity. Qed.

(** The scenario of the specification: the only matching element is a div
    with the id main-content inside an article that does not match. *)
Example nested_div_is_selected :
  fst (extract_core_content demo_env
         (Some (el 0 "[document]" []
                  [el 1 "article" [] [el 2 "div" [with_id "main-content"] [txt "X"]]])) w0) =
  Ret (Some (extraction_result 100 (el 2 "div" [with_id "main-content"] [txt "X"])),
       Some (el 0 "[document]" [] [el 1 "article" [] []])).
Proof. vm_compute. reflexivity. Qed.


(** A whole run: the nav is removed, the div is selected, and since the
    extraction result has no title element the file is named after the
    host. *)
Example main_page_run :
  main page_env (py "http://host.example/post") None w0 =
  (Ret tt,
   World 113
     [py "Extracting content from: http://host.example/post";
      py "Content successfully saved to: host_example.html"]
     {[ py "host_example.html" := py "A" ]}).
Proof. vm_compute. reflexivity. Qed.

(** The parser rejects the markup: the exception leaves [main] after the
    first line, and nothing is written. *)
Example main_parser_rejects :
  main reject_env (py "http://host.example/post") None w0 =
  (Raise (ParserRejectedMarkup (py "The markup you provided was rejected by the parser.")),
   World 100 [py "Extracting content from: http://host.example/post"] ∅).
Proof. vm_compute. reflexivity. Qed.

(** The output path names a directory that does not exist: [open] raises,
    the exception leaves [main], and nothing is written. *)
Example main_open_fails :
  main no_dir_env (py "http://host.example/post") (Some (py "no_such_dir/x.html")) w0 =
  (Raise (OSError (py "[Errno 2] No such file or directory")),
   World 113 [py "Extracting content from: http://host.example/post"] ∅).
Proof. vm_compute. reflexivity. Qed.

Example main_host_down :
  main demo_env (py "http://down.example/") None w0 =
  (Ret tt,
   World 100
     [py "Extracting content from: http://down.example/";
      py "Error fetching URL: connection refused";
      py "Failed to extract content"]
     ∅).
Proof. vm_compute. reflexivity. Qed.

Lemma remove_noise_idempotent_witness :
  unique_ids doc_noisy /\
  remove_noise doc_noisy = prune noise doc_noisy /\
  remove_noise (remove_noise doc_noisy) = remove_noise doc_noisy /\
  find_all noise (remove_noise doc_noisy) = [].
Proof.
  assert (H : unique_ids doc_noisy).
  { apply (bool_decide_unpack _). vm_compute. exact I. }
  destruct (remove_noise_idempotent doc_noisy) as (_ & Hn & Hi & Hp).
  split_and!; [exact H|exact (Hp H)|exact Hi|exact Hn].
Defined.


Lemma dual_match_two_entries_witness :
  content_candidates_of demo_env doc_dual = Ret cands_dual /\
  In article_dual (find_all containers doc_dual) /\
  id_matches demo_env article_dual = true /\
  class_check demo_env article_dual = true /\
  entries_of demo_env article_dual = [(article_dual, 3); (article_dual, 2)] /\
  sort_by_score_reverse cands_dual =
    List.filter (score_is 3) cands_dual ++ List.filter (score_is 2) cands_dual.
Proof.
  assert (H1 : content_candidates_of demo_env doc_dual = Ret cands_dual)
    by (vm_compute; reflexivity).
  assert (H2 : In article_dual (find_all containers doc_dual)) by in_list.
  assert (H3 : id_matches demo_env article_dual = true) by (vm_compute; reflexivity).
  assert (H4 : class_check demo_env article_dual = true) by (vm_compute; reflexivity).
  destruct (dual_match_two_entries demo_env doc_dual cands_dual article_dual H1 H2 H3 H4)
    as (_ & _ & _ & He & Hs & _).
  split_and!; [exact H1|exact H2|exact H3|exact H4|exact He|exact Hs].
Defined.

Lemma fallback_selects_body_witness :
  (forall d, In d (find_all containers doc_plain) ->
     id_check demo_env d = Ret false /\ class_check demo_env d = false) /\
  find (py "body") doc_plain = Some body_plain /\
  select_main_content doc_plain [] = Ret (Some body_plain) /\
  extract_core_content demo_env (Some doc_plain) w0 =
    (Ret (Some (extraction_result (next_uid w0) body_plain),
          Some (decompose body_plain doc_plain)),
     World (next_uid w0 + 1 + 1 + 1 + 1 + 1)%N (stdout w0) (files w0)).
Proof.
  assert (H1 : forall d, In d (find_all containers doc_plain) ->
     id_check demo_env d = Ret false /\ class_check demo_env d = false).
  { intros d Hd. vm_compute in Hd. destruct Hd as [<-|[]].
    split; vm_compute; reflexivity. }
  assert (H2 : find (py "body") doc_plain = Some body_plain) by (vm_compute; reflexivity).
  destruct (fallback_selects_body demo_env doc_plain w0 body_plain H1 H2)
    as (_ & Hs & Hr & _).
  split_and!; [exact H1|exact H2|exact Hs|exact Hr].
Defined.

Lemma moved_subtree_preserved_witness :
  content_candidates_of demo_env doc_two_ids = Ret cands_two_ids /\
  select_main_content doc_two_ids cands_two_ids = Ret (Some div_content) /\
  exists new_soup soup' w' body,
    extract_core_content demo_env (Some doc_two_ids) w0 =
      (Ret (Some new_soup, Some soup'), w') /\
    new_soup = extraction_result (next_uid w0) div_content /\
    find (py "body") new_soup = Some body /\
    contents_of body = [div_content] /\
    descendants body = div_content :: descendants div_content /\
    In div_content (descendants doc_two_ids) /\
    soup' = decompose div_content doc_two_ids /\
    (forall d, In d (descendants soup') -> uid_of d <> uid_of div_content).
Proof.
  assert (H1 : content_candidates_of demo_env doc_two_ids = Ret cands_two_ids)
    by (vm_compute; reflexivity).
  assert (H2 : select_main_content doc_two_ids cands_two_ids = Ret (Some div_content))
    by (vm_compute; reflexivity).
  split_and!; [exact H1|exact H2|].
  exact (moved_subtree_preserved demo_env doc_two_ids w0 cands_two_ids div_content H1 H2).
Defined.



Lemma save_independent_of_url_witness :
  find (py "title") doc_plain = Some title_plain /\
  save_content_html demo_env (Some doc_plain) (py "http://a.example/") None w0 =
  save_content_html demo_env (Some doc_plain) (py "http://b.example/x") None w0 /\
  fst (save_content_html demo_env (Some doc_plain) (py "http://a.example/") None w0) =
    Ret (Some (py "Hello.html")).
Proof.
  assert (H : find (py "title") doc_plain = Some title_plain) by (vm_compute; reflexivity).
  destruct (save_independent_of_url demo_env doc_plain title_plain
              (py "http://a.example/") (py "http://b.example/x") None w0 H) as (Hs & _ & Hp).
  split_and!; [exact H|exact Hs|].
  rewrite (Hp (py "<html></html>")); reflexivity.
Defined.

Lemma enhance_changes_only_head_witness :
  unique_ids doc_result /\
  find (py "head") doc_result = Some head_result /\
  exists soup' h',
    enhance_content_preservation (Some doc_result) w0 =
      (Ret (Some soup'), World (next_uid w0 + 1)%N (stdout w0) (files w0)) /\
    find (py "head") soup' = Some h' /\
    contents_of h' = contents_of head_result ++ [style_element (next_uid w0)] /\
    find (py "body") soup' = Some body_result.
Proof.
  assert (H1 : unique_ids doc_result).
  { apply (bool_decide_unpack _). vm_compute. exact I. }
  assert (H2 : find (py "head") doc_result = Some head_result) by (vm_compute; reflexivity).
  destruct (enhance_changes_only_head doc_result head_result w0 H1 H2)
    as (soup' & h' & Hrun & _ & _ & _ & Hh & _ & _ & _ & Hc & _ & Hb & _).
  split_and!; [exact H1|exact H2|].
  exists soup', h'. split_and!; [exact Hrun|exact Hh|exact Hc|].
  apply Hb; [vm_compute; reflexivity|].
  vm_compute. intros [H|[H|[]]]; discriminate H.
Defined.

Lemma filename_sanitization_witness :
  List.length (safe_title_of demo_env (py "A title: longer than fifty characters / cut off at 50!")) = 50%nat /\
  safe_title_of demo_env (py "A title: longer than fifty characters / cut off at 50!") !! 7%nat = Some 95%N /\
  safe_title_of demo_env (py "Hello: World!/<script>") = py "Hello_ World___script_".
Proof.
  destruct (filename_sanitization demo_env
              (py "A title: longer than fifty characters / cut off at 50!"))
    as (Hlen & _ & Hascii & _ & _ & Hhello).
  split_and!; [exact Hlen| |exact Hhello].
  apply (Hascii 7%nat 58%N); [lia|reflexivity|reflexivity].
Defined.

(** A letter outside ASCII is outside [A-Za-z0-9 _-] and is kept. *)
Lemma non_ascii_letter_is_kept :
  in_filename_class 233 = false /\
  isalnum (unicode demo_env) 233 = true /\
  safe_title_of demo_env [233%N] = [233%N] /\
  safe_title_of demo_env [233%N] <> [95%N].
Proof. split_and!; [reflexivity..|discriminate]. Qed.

(** With the head inside the body, the append to the head changes the body
    subtree. *)
Lemma head_inside_body_changes_body :
  unique_ids doc_head_in_body /\
  is_Some (find (py "head") doc_head_in_body) /\
  exists b soup' w',
    find (py "body") doc_head_in_body = Some b /\
    enhance_content_preservation (Some doc_head_in_body) w0 = (Ret (Some soup'), w') /\
    find (py "body") soup' <> Some b.
Proof.
  split_and!.
  - apply (bool_decide_unpack _). vm_compute. exact I.
  - vm_compute. eauto.
  - eexists _, _, _. split_and!; [vm_compute; reflexivity..|].
    vm_compute. discriminate.
Qed.

(** C2, on the code.  For a document without a candidate and without a body
    element, such as the one parsed from [<p>hi</p>],
    [extract_core_content] does not return [None]: the append of [None]
    raises a ValueError, which nothing catches, so [main] ends with that
    exception after its first line of output and never prints its
    diagnostic; no file is written.  For no document at all does
    [extract_core_content] return [None]. *)
Theorem no_body_raises_instead_of_none :
  content_candidates_of demo_env (doc_no_body 100) = Ret [] /\
  find (py "body") (doc_no_body 100) = None /\
  extract_core_content demo_env (Some (doc_no_body 100)) w0 =
    (Raise (ValueError (py "Cannot insert None into a tag.")), World 105 [] ∅) /\
  main demo_env (py "http://up.example/") None w0 =
    (Raise (ValueError (py "Cannot insert None into a tag.")),
     World 107 [py "Extracting content from: http://up.example/"] ∅) /\
  (forall E soup w after,
     fst (extract_core_content E (Some soup) w) <> Ret (None, after)).
Proof.
  split_and!; [vm_compute; reflexivity..|].
  intros E soup w after. apply extract_core_content_not_None.
Qed.

(** ** The further properties on the sample documents *)

Ltac fresh_ids := intros v Hv; vm_compute in Hv;
  repeat (destruct Hv as [<-|Hv]; [reflexivity|]); destruct Hv.

Lemma selection_by_document_order_witness :
  content_candidates_of demo_env doc_dual = Ret cands_dual /\
  first_choice demo_env doc_dual = Some article_dual /\
  select_main_content doc_dual cands_dual = Ret (Some article_dual).
Proof.
  assert (H : content_candidates_of demo_env doc_dual = Ret cands_dual)
    by (vm_compute; reflexivity).
  split_and!; [exact H|vm_compute; reflexivity|].
  rewrite (selection_by_document_order demo_env doc_dual cands_dual H).
  vm_compute. reflexivity.
Defined.


Lemma remove_noise_keeps_invariants_witness :
  unique_ids doc_noisy /\
  html_attrs doc_noisy = true /\
  unique_ids (remove_noise doc_noisy) /\
  html_attrs (remove_noise doc_noisy) = true /\
  uid_of (remove_noise doc_noisy) = Some 0%N.
Proof.
  assert (H1 : unique_ids doc_noisy).
  { apply (bool_decide_unpack _). vm_compute. exact I. }
  assert (H2 : html_attrs doc_noisy = true) by (vm_compute; reflexivity).
  destruct (remove_noise_keeps_invariants doc_noisy H1 H2) as (Hu & Ha & Hid & _).
  split_and!; [exact H1|exact H2|exact Hu|exact Ha|exact Hid].
Defined.

Lemma response_status_decides_witness :
  requests_get page_env (py "http://host.example/post") = Ret (Response 200 []) /\
  html_parser page_env [] 100 = Parsed (page_at 100) 107 /\
  extract_web_content page_env (py "http://host.example/post") w0 =
    (Ret (Some page_clean), World 107 [] ∅) /\
  extract_web_content reject_env (py "http://host.example/post") w0 =
    (Raise (ParserRejectedMarkup (py "The markup you provided was rejected by the parser.")),
     w0).
Proof.
  assert (H1 : requests_get page_env (py "http://host.example/post") = Ret (Response 200 []))
    by reflexivity.
  assert (H2 : html_parser page_env (content (Response 200 [])) (next_uid w0) =
               Parsed (page_at 100) 107) by reflexivity.
  assert (H3 : ~ 400 <= status_code (Response 200 []) < 600) by (simpl; lia).
  destruct (response_status_decides page_env (py "http://host.example/post") w0
              (Response 200 []) H1) as (_ & Hgood & _).
  destruct (response_status_decides reject_env (py "http://host.example/post") w0
              (Response 200 []) H1) as (_ & _ & Hrejected & _).
  split_and!; [exact H1|exact H2| |].
  - destruct (Hgood (page_at 100) 107%N H3 H2) as [-> _]. vm_compute. reflexivity.
  - apply Hrejected; [exact H3|reflexivity].
Defined.

Lemma enhance_creates_head_witness :
  unique_ids doc_two_ids /\
  find (py "head") doc_two_ids = None /\
  find (py "html") doc_two_ids = Some html_two_ids /\
  exists soup' h',
    enhance_content_preservation (Some doc_two_ids) w0 =
      (Ret (Some soup'), World 102 [] ∅) /\
    find (py "head") soup' = Some (new_head 100) /\
    find (py "html") soup' = Some h' /\
    contents_of h' = new_head 100 :: contents_of html_two_ids.
Proof.
  assert (H1 : unique_ids doc_two_ids).
  { apply (bool_decide_unpack _). vm_compute. exact I. }
  assert (H2 : find (py "head") doc_two_ids = None) by (vm_compute; reflexivity).
  assert (H3 : find (py "html") doc_two_ids = Some html_two_ids) by (vm_compute; reflexivity).
  destruct (enhance_creates_head doc_two_ids html_two_ids w0 H1 H2 H3)
    as (soup' & h' & Hrun & _ & _ & Hh & Hm & _ & _ & _ & Hc & _).
  split_and!; [exact H1|exact H2|exact H3|].
  exists soup', h'. split_and!; [exact Hrun|exact Hh|exact Hm|exact Hc].
Defined.

Lemma extract_then_enhance_witness :
  content_candidates_of demo_env doc_two_ids = Ret cands_two_ids /\
  select_main_content doc_two_ids cands_two_ids = Ret (Some div_content) /\
  fresh_for (next_uid w0) doc_two_ids /\
  exists w1,
    extract_core_content demo_env (Some doc_two_ids) w0 =
      (Ret (Some (extraction_result 100 div_content),
            Some (decompose div_content doc_two_ids)), w1) /\
    enhance_content_preservation (Some (extraction_result 100 div_content)) w1 =
      (Ret (Some (final_document 100 div_content)), World 106 [] ∅).
Proof.
  assert (H1 : content_candidates_of demo_env doc_two_ids = Ret cands_two_ids)
    by (vm_compute; reflexivity).
  assert (H2 : select_main_content doc_two_ids cands_two_ids = Ret (Some div_content))
    by (vm_compute; reflexivity).
  assert (H3 : fresh_for (next_uid w0) doc_two_ids) by fresh_ids.
  destruct (extract_then_enhance demo_env doc_two_ids w0 cands_two_ids div_content H1 H2 H3)
    as (w1 & Hx & He & _).
  split_and!; [exact H1|exact H2|exact H3|].
  exists w1. split; [exact Hx|exact He].
Defined.



Lemma saved_document_has_one_style_witness :
  content_candidates_of page_env (remove_noise (page_at 100)) = Ret [(div_page, 3)] /\
  select_main_content (remove_noise (page_at 100)) [(div_page, 3)] = Ret (Some div_page) /\
  find_all noise (final_document 107 div_page) = [style_element 112].
Proof.
  assert (H1 : content_candidates_of page_env (remove_noise (page_at 100)) =
               Ret [(div_page, 3)]) by (vm_compute; reflexivity).
  assert (H2 : select_main_content (remove_noise (page_at 100)) [(div_page, 3)] =
               Ret (Some div_page)) by (vm_compute; reflexivity).
  destruct (saved_document_has_one_style page_env (page_at 100) [(div_page, 3)] div_page 107
              H1 H2) as [_ Hf].
  split_and!; [exact H1|exact H2|exact Hf].
Defined.

Lemma class_check_by_token_witness :
  get div_entry (py "class") = Some (AList [py "Entry-Body"]) /\
  Forall (fun token => forallb is_ascii token = true) [py "Entry-Body"] /\
  class_check demo_env div_entry = true.
Proof.
  assert (H1 : get div_entry (py "class") = Some (AList [py "Entry-Body"]))
    by (vm_compute; reflexivity).
  assert (H2 : Forall (fun token => forallb is_ascii token = true) [py "Entry-Body"])
    by (repeat constructor).
  split_and!; [exact H1|exact H2|].
  apply (class_check_by_token demo_env div_entry [py "Entry-Body"] H1 H2).
  exists (py "Entry-Body"). split; [by left|vm_compute; reflexivity].
Defined.
